(** * keyvault_client.py: the Key Vault client, its TLS trust policy and its CLI

    A shallow embedding of [src/keyvault_client.py].  The class
    [AzureKeyVaultClient] becomes a record of attributes held in the program
    state; its methods and [main] are written in a small state-and-exception
    monad that also carries what the program prints.  The libraries the
    program calls (urllib.parse, ssl, requests, the Azure SDK, the process
    environment) are external collaborators: their answers are inputs.
    A [str] is a [string] of bytes, and [lower] moves the ASCII letters. *)

From Stdlib Require Import String Ascii List Bool Arith Lia DecimalString.
Import ListNotations.
Open Scope string_scope.

(** ** Python builtins used by the program *)

Module Py.

(** [s.startswith(p)] *)
Fixpoint startswith (s p : string) : bool :=
  match p, s with
  | EmptyString, _ => true
  | String _ _, EmptyString => false
  | String b p', String a s' => Ascii.eqb a b && startswith s' p'
  end.

(** [s.endswith(suf)]: some tail of [s] is [suf]. *)
Fixpoint endswith (s suf : string) : bool :=
  String.eqb s suf ||
  match s with
  | EmptyString => false
  | String _ s' => endswith s' suf
  end.

(** [c.lower()] on one character: 'A'..'Z' move to 'a'..'z'. *)
Definition lower_char (c : ascii) : ascii :=
  let n := nat_of_ascii c in
  if Nat.leb 65 n && Nat.leb n 90 then ascii_of_nat (n + 32) else c.

(** [s.lower()] *)
Fixpoint lower (s : string) : string :=
  match s with
  | EmptyString => EmptyString
  | String c s' => String (lower_char c) (lower s')
  end.

(** [x in xs] for a list of strings *)
Definition contains (xs : list string) (x : string) : bool :=
  existsb (String.eqb x) xs.

(** Truth value of a [str]: the empty string is false. *)
Definition truthy (s : string) : bool :=
  negb (String.eqb s "").

(** Truth value of an [Optional[str]]: [None] and [""] are false. *)
Definition truthy_opt (v : option string) : bool :=
  match v with
  | Some s => truthy s
  | None => false
  end.

(** [a or b] on optional strings: [a] when it is true, else [b]. *)
Definition or_else (a b : option string) : option string :=
  if truthy_opt a then a else b.

(** [str(n)] for a length *)
Definition str_of_nat (n : nat) : string :=
  NilEmpty.string_of_uint (Nat.to_uint n).

(** The newline character of a string literal. *)
Definition nl : string := String (ascii_of_nat 10) EmptyString.

(** A [dict] with string keys: insertion ordered, one entry per key. *)
Definition dict (V : Type) : Type := list (string * V).

(** [d[k] = v]: an existing key keeps its place and takes the new value,
    a new key goes to the end. *)
Fixpoint setitem {V} (d : dict V) (k : string) (v : V) : dict V :=
  match d with
  | [] => [(k, v)]
  | (k', v') :: d' =>
      if String.eqb k' k then (k', v) :: d' else (k', v') :: setitem d' k v
  end.

(** [d.get(k)] *)
Fixpoint getitem {V} (d : dict V) (k : string) : option V :=
  match d with
  | [] => None
  | (k', v') :: d' => if String.eqb k' k then Some v' else getitem d' k
  end.

(** [list(d.keys())] *)
Definition keys {V} (d : dict V) : list string := map fst d.

(** [d.pop(k)] as far as the dictionary goes. *)
Fixpoint delitem {V} (d : dict V) (k : string) : dict V :=
  match d with
  | [] => []
  | (k', v') :: d' =>
      if String.eqb k' k then d' else (k', v') :: delitem d' k
  end.

End Py.

(** ** Exceptions *)

(** The subclasses of [azure.core.exceptions.AzureError] a call can raise. *)
Inductive AzureErrorKind : Type :=
| ResourceNotFoundError
| ClientAuthenticationError
| ServiceRequestError
| ServiceResponseError
| HttpResponseError.

Inductive exn : Type :=
| AzureError (kind : AzureErrorKind) (msg : string)
| ValueError (msg : string)
| AttributeError (msg : string)
| OtherException (msg : string)
| SystemExit (code : nat).

(** [str(e)] *)
Definition exn_str (e : exn) : string :=
  match e with
  | AzureError _ msg => msg
  | ValueError msg => msg
  | AttributeError msg => msg
  | OtherException msg => msg
  | SystemExit code => Py.str_of_nat code
  end.

(** [isinstance(e, AzureError)] *)
Definition is_AzureError (e : exn) : bool :=
  match e with
  | AzureError _ _ => true
  | _ => false
  end.

(** [isinstance(e, Exception)]: [SystemExit] derives from [BaseException]
    only. *)
Definition is_Exception (e : exn) : bool :=
  match e with
  | SystemExit _ => false
  | _ => true
  end.

Inductive Result (A : Type) : Type :=
| Ok (a : A)
| Raise (e : exn).
Arguments Ok {A} a.
Arguments Raise {A} e.

(** ** The libraries' objects *)

(** [ssl.SSLContext], the three attributes the program sets. *)
Inductive VerifyMode : Type := CERT_NONE | CERT_OPTIONAL | CERT_REQUIRED.
Inductive TLSVersion : Type :=
| MINIMUM_SUPPORTED | TLSv1 | TLSv1_1 | TLSv1_2 | TLSv1_3.

Record SSLContext : Type := mkSSLContext {
  check_hostname : bool;
  verify_mode : VerifyMode;
  minimum_version : TLSVersion
}.

(** [requests.adapters.HTTPAdapter]: the SSL context it hands to its
    connection pool, [None] when it leaves the choice to the HTTP library. *)
Record HTTPAdapter : Type := mkHTTPAdapter {
  adapter_ssl_context : option SSLContext
}.

(** [requests.adapters.HTTPAdapter()] *)
Definition HTTPAdapter_new : HTTPAdapter :=
  {| adapter_ssl_context := None |}.

(** [requests.Session]: [verify] and the mounted adapters. *)
Record Session : Type := mkSession {
  verify : bool;
  adapters : Py.dict HTTPAdapter
}.

(** [session.mount(prefix, adapter)]: the adapter is stored under the prefix
    and the shorter prefixes are moved behind it. *)
Definition mount (s : Session) (prefix : string) (a : HTTPAdapter) : Session :=
  let stored := Py.setitem (adapters s) prefix a in
  let keys_to_move :=
    filter (fun kv => Nat.ltb (String.length (fst kv)) (String.length prefix)) stored in
  {| verify := verify s;
     adapters :=
       fold_left (fun d kv => (Py.delitem d (fst kv) ++ [kv])%list)
         keys_to_move stored |}.

(** [requests.Session()] *)
Definition Session_new : Session :=
  mount (mount {| verify := true; adapters := [] |} "https://" HTTPAdapter_new)
        "http://" HTTPAdapter_new.

(** [session.verify = b] *)
Definition set_verify (s : Session) (b : bool) : Session :=
  {| verify := b; adapters := adapters s |}.

(** The adapter a request to [url] goes through: the first mounted prefix
    the URL starts with. *)
Definition get_adapter (s : Session) (url : string) : option HTTPAdapter :=
  option_map snd
    (find (fun kv => Py.startswith (Py.lower url) (Py.lower (fst kv))) (adapters s)).

(** [azure.core.pipeline.transport.RequestsTransport(session=...)] *)
Record RequestsTransport : Type := mkRequestsTransport {
  session : Session
}.

(** The handle [DefaultAzureCredential()] returns. *)
Inductive Credential : Type := DefaultCredential.

(** [KeyVaultSecret] and [SecretProperties], as far as the program reads
    them. *)
Record KeyVaultSecret : Type := mkKeyVaultSecret {
  value : option string
}.

Record SecretProperties : Type := mkSecretProperties {
  name : string
}.

(** The pager [list_properties_of_secrets()] returns: the items it yields
    and the exception that ends the iteration early, if any. *)
Record ItemPaged : Type := mkItemPaged {
  yielded : list SecretProperties;
  raised : option exn
}.

(** What the remote store answers to each call of the SDK client. *)
Record Remote : Type := mkRemote {
  remote_get_secret : string -> Result KeyVaultSecret;
  remote_set_secret : string -> string -> Result KeyVaultSecret;
  remote_list_properties_of_secrets : ItemPaged
}.

(** [azure.keyvault.secrets.SecretClient]: its constructor arguments and the
    store it talks to. *)
Record SecretClient : Type := mkSecretClient {
  sc_vault_url : string;
  sc_credential : Credential;
  sc_transport : RequestsTransport;
  sc_remote : Remote
}.

(** The process environment: [os.getenv] once [load_dotenv()] has run, what
    [DefaultAzureCredential()] does, and the remote store. *)
Record Environment : Type := mkEnvironment {
  getenv : string -> option string;
  DefaultAzureCredential : Result Credential;
  remote : Remote
}.

(** [os.getenv(key, default)] *)
Definition getenv_default (env : Environment) (key default : string) : string :=
  match getenv env key with
  | Some v => v
  | None => default
  end.

(** ** The client object and the program state *)

(** The attributes of an [AzureKeyVaultClient]; [credential] and [client]
    are [None] until [__init__] assigns them. *)
Record AzureKeyVaultClient : Type := mkAzureKeyVaultClient {
  vault_url : option string;
  disable_ssl_verify : bool;
  credential : option Credential;
  client : option SecretClient
}.

(** The object before [__init__] has run. *)
Definition blank : AzureKeyVaultClient :=
  {| vault_url := None; disable_ssl_verify := false;
     credential := None; client := None |}.

(** The state the program works on: the client object, the lines printed so
    far, and whether urllib3's insecure-request warning is switched off. *)
Record State : Type := mkState {
  self : AzureKeyVaultClient;
  stdout : list string;
  warnings_disabled : bool
}.

Definition initial : State :=
  {| self := blank; stdout := []; warnings_disabled := false |}.

(** ** The monad: state and exceptions *)

Definition M (A : Type) : Type := State -> Result A * State.

Definition ret {A} (a : A) : M A := fun st => (Ok a, st).

Definition bind {A B} (m : M A) (f : A -> M B) : M B :=
  fun st =>
    match m st with
    | (Ok a, st') => f a st'
    | (Raise e, st') => (Raise e, st')
    end.

Declare Scope monad_scope.
Delimit Scope monad_scope with monad.
Notation "x <- m ;; k" := (bind m (fun x => k))
  (at level 61, m at next level, right associativity) : monad_scope.
Notation "m ;; k" := (bind m (fun _ => k))
  (at level 61, right associativity) : monad_scope.
Open Scope monad_scope.

Definition raise {A} (e : exn) : M A := fun st => (Raise e, st).

(** The outcome of a library call enters the monad. *)
Definition lift {A} (r : Result A) : M A := fun st => (r, st).

(** [print(line)] *)
Definition print (line : string) : M unit :=
  fun st =>
    (Ok tt, {| self := self st; stdout := (stdout st ++ [line])%list;
               warnings_disabled := warnings_disabled st |}).

(** [self.attr] *)
Definition attr {A} (f : AzureKeyVaultClient -> A) : M A :=
  fun st => (Ok (f (self st)), st).

(** [self.... = ...] *)
Definition assign (f : AzureKeyVaultClient -> AzureKeyVaultClient) : M unit :=
  fun st =>
    (Ok tt, {| self := f (self st); stdout := stdout st;
               warnings_disabled := warnings_disabled st |}).

(** [urllib3.disable_warnings(urllib3.exceptions.InsecureRequestWarning)] *)
Definition disable_warnings : M unit :=
  fun st =>
    (Ok tt, {| self := self st; stdout := stdout st; warnings_disabled := true |}).

(** [try: body  except C as e: handler(e)], [handles] deciding
    [isinstance(e, C)]. *)
Definition try_except {A} (body : M A) (handles : exn -> bool)
    (handler : exn -> M A) : M A :=
  fun st =>
    match body st with
    | (Ok a, st') => (Ok a, st')
    | (Raise e, st') => if handles e then handler e st' else (Raise e, st')
    end.

(** [sys.exit(code)] *)
Definition sys_exit {A} (code : nat) : M A := raise (SystemExit code).

(** [for x in xs: body], the loop threading its local variables [s]. *)
Fixpoint for_each {S X} (xs : list X) (body : S -> X -> M S) (s : S) : M S :=
  match xs with
  | [] => ret s
  | x :: xs' => s' <- body s x ;; for_each xs' body s'
  end.

(** [for item in pager: body]: the yielded items first, then the exception
    the pager ends with, if it has one. *)
Definition for_paged {S} (pager : ItemPaged) (body : S -> SecretProperties -> M S)
    (s : S) : M S :=
  s' <- for_each (yielded pager) body s ;;
  match raised pager with
  | Some e => raise e
  | None => ret s'
  end.

(** Attribute updates. *)
Definition set_vault_url (v : option string) (o : AzureKeyVaultClient) :=
  {| vault_url := v; disable_ssl_verify := disable_ssl_verify o;
     credential := credential o; client := client o |}.

Definition set_disable_ssl_verify (b : bool) (o : AzureKeyVaultClient) :=
  {| vault_url := vault_url o; disable_ssl_verify := b;
     credential := credential o; client := client o |}.

Definition set_credential (c : option Credential) (o : AzureKeyVaultClient) :=
  {| vault_url := vault_url o; disable_ssl_verify := disable_ssl_verify o;
     credential := c; client := client o |}.

Definition set_client (c : option SecretClient) (o : AzureKeyVaultClient) :=
  {| vault_url := vault_url o; disable_ssl_verify := disable_ssl_verify o;
     credential := credential o; client := c |}.

(** A method call on a value that may be [None]. *)
Definition expect {A} (method : string) (v : option A) : M A :=
  match v with
  | Some a => ret a
  | None =>
      raise (AttributeError
               ("'NoneType' object has no attribute '" ++ method ++ "'"))
  end.

(** ** The class [AzureKeyVaultClient] *)

(** The trust classifier: the expression bound to [is_internal] in
    [_create_transport], on the parsed hostname. *)
Definition is_internal (hostname : string) : bool :=
  Py.startswith hostname "10." ||
  Py.startswith hostname "192.168." ||
  Py.startswith hostname "172." ||
  Py.contains ["localhost"; "127.0.0.1"] hostname ||
  negb (Py.endswith hostname ".azure.net").

Section Client.

(** [urlparse(url).hostname]: an exception when the URL is refused, [None]
    when it has no host, the host otherwise. *)
Variable urlparse_hostname : string -> Result (option string).

(** [ssl.create_default_context()] *)
Variable create_default_context : SSLContext.

Variable env : Environment.

(** [SecretClient(vault_url=..., credential=..., transport=...)]; the SDK
    refuses a missing URL or credential. *)
Definition SecretClient_new (url : option string) (cred : option Credential)
    (transport : RequestsTransport) : Result SecretClient :=
  match url, cred with
  | Some u, Some c =>
      Ok {| sc_vault_url := u; sc_credential := c;
            sc_transport := transport; sc_remote := remote env |}
  | _, _ => Raise (ValueError "vault_url and credential are required")
  end.

Definition _create_transport : M RequestsTransport :=
  let session := Session_new in
  url <- attr vault_url ;;
  hostname <- match url with
              | Some u => lift (urlparse_hostname u)
              | None => ret None
              end ;;
  hostname <- expect "startswith" hostname ;;
  let is_internal := is_internal hostname in
  disable <- attr disable_ssl_verify ;;
  session <-
    (if disable || is_internal then
       let session := set_verify session false in
       disable_warnings ;;
       (if is_internal then
          print ("Detected internal Key Vault (" ++ hostname
                 ++ ") - SSL verification disabled")
        else
          print "WARNING: SSL verification is disabled. This should only be used for testing.") ;;
       ret session
     else
       let ssl_context := create_default_context in
       let ssl_context :=
         {| check_hostname := true;
            verify_mode := verify_mode ssl_context;
            minimum_version := minimum_version ssl_context |} in
       let ssl_context :=
         {| check_hostname := check_hostname ssl_context;
            verify_mode := CERT_REQUIRED;
            minimum_version := minimum_version ssl_context |} in
       let ssl_context :=
         {| check_hostname := check_hostname ssl_context;
            verify_mode := verify_mode ssl_context;
            minimum_version := TLSv1_2 |} in
       let session := set_verify session true in
       print "Configured for public Azure Key Vault (strict SSL verification)" ;;
       ret session) ;;
  let adapter := HTTPAdapter_new in
  let session := mount session "https://" adapter in
  ret {| session := session |}.

Definition _get_credential : M Credential :=
  try_except
    (lift (DefaultAzureCredential env))
    is_Exception
    (fun e =>
       print ("DefaultAzureCredential failed: " ++ exn_str e) ;;
       raise (ValueError
                ("No valid credentials found. Please ensure you have:" ++ Py.nl
                 ++ "1. Azure CLI installed and logged in (az login)" ++ Py.nl
                 ++ "2. Or running in Azure with managed identity enabled" ++ Py.nl
                 ++ "3. AZURE_KEYVAULT_URL set in environment variables"))).

Definition __init__ (vault_url_arg : option string) (disable_ssl_verify_arg : bool)
    : M unit :=
  assign (set_vault_url
            (Py.or_else vault_url_arg (getenv env "AZURE_KEYVAULT_URL"))) ;;
  assign (set_disable_ssl_verify
            (disable_ssl_verify_arg ||
             String.eqb (Py.lower (getenv_default env "DISABLE_SSL_VERIFY" "false"))
                        "true")) ;;
  url <- attr vault_url ;;
  (if negb (Py.truthy_opt url) then
     raise (ValueError
              "AZURE_KEYVAULT_URL not found in environment variables or .env file")
   else ret tt) ;;
  url <- attr vault_url ;;
  url <- expect "endswith" url ;;
  (if negb (Py.endswith url "/") then
     assign (set_vault_url (Some (url ++ "/")))
   else ret tt) ;;
  url <- attr vault_url ;;
  url <- expect "__format__" url ;;
  print ("Connecting to Key Vault: " ++ url) ;;
  disable <- attr disable_ssl_verify ;;
  (if disable then print "WARNING: SSL verification is disabled" else ret tt) ;;
  cred <- _get_credential ;;
  assign (set_credential (Some cred)) ;;
  transport <- _create_transport ;;
  url <- attr vault_url ;;
  cred <- attr credential ;;
  sdk <- lift (SecretClient_new url cred transport) ;;
  assign (set_client (Some sdk)).

(** [self.client], an attribute [__init__] sets last. *)
Definition self_client : M SecretClient :=
  c <- attr client ;;
  match c with
  | Some sdk => ret sdk
  | None =>
      raise (AttributeError
               "'AzureKeyVaultClient' object has no attribute 'client'")
  end.

(** [list(pager)] *)
Definition list_of (pager : ItemPaged) : M (list SecretProperties) :=
  for_paged pager (fun acc item => ret (acc ++ [item])%list) [].

Definition test_connection : M bool :=
  try_except
    (print "Testing connection..." ;;
     sdk <- self_client ;;
     secrets <- list_of (remote_list_properties_of_secrets (sc_remote sdk)) ;;
     print ("✓ Connection to Azure Key Vault successful! Found "
            ++ Py.str_of_nat (List.length secrets) ++ " secrets.") ;;
     ret true)
    is_Exception
    (fun e =>
       print ("✗ Connection to Azure Key Vault failed: " ++ exn_str e) ;;
       print (Py.nl ++ "Troubleshooting suggestions:") ;;
       print "1. For internal Key Vaults, try setting DISABLE_SSL_VERIFY=true" ;;
       print "2. Verify your Azure credentials with 'az login'" ;;
       print "3. Check if the Key Vault URL is correct" ;;
       ret false).

Definition get_secret (secret_name : string) : M (option string) :=
  try_except
    (sdk <- self_client ;;
     secret <- lift (remote_get_secret (sc_remote sdk) secret_name) ;;
     ret (value secret))
    is_AzureError
    (fun e =>
       print ("Error retrieving secret '" ++ secret_name ++ "': " ++ exn_str e) ;;
       ret None).

Definition set_secret (secret_name secret_value : string) : M bool :=
  try_except
    (sdk <- self_client ;;
     lift (remote_set_secret (sc_remote sdk) secret_name secret_value) ;;
     print ("Secret '" ++ secret_name ++ "' set successfully") ;;
     ret true)
    is_AzureError
    (fun e =>
       print ("Error setting secret '" ++ secret_name ++ "': " ++ exn_str e) ;;
       ret false).

Definition list_secrets : M (list string) :=
  try_except
    (let secrets := [] in
     sdk <- self_client ;;
     for_paged (remote_list_properties_of_secrets (sc_remote sdk))
       (fun secrets secret_properties =>
          ret (secrets ++ [name secret_properties])%list)
       secrets)
    is_AzureError
    (fun e =>
       print ("Error listing secrets: " ++ exn_str e) ;;
       ret []).

Definition get_multiple_secrets (secret_names : list string)
    : M (Py.dict (option string)) :=
  let results := [] in
  for_each secret_names
    (fun results secret_name =>
       v <- get_secret secret_name ;;
       ret (Py.setitem results secret_name v))
    results.

(** ** The command line *)

Definition usage : M unit :=
  print "Usage:" ;;
  print "  python keyvault_client.py test" ;;
  print "  python keyvault_client.py get <secret_name>" ;;
  print "  python keyvault_client.py set <secret_name> <secret_value>" ;;
  print "  python keyvault_client.py list" ;;
  print "  python keyvault_client.py get-multiple <secret1> <secret2> ..." ;;
  print (Py.nl ++ "Environment variables:") ;;
  print "  DISABLE_SSL_VERIFY=true  # Disable SSL verification (testing only)".

(** The text [print] shows for an optional string under a true test. *)
Definition shown (v : option string) : string :=
  match v with
  | Some s => s
  | None => "None"
  end.

Definition main (argv : list string) : M unit :=
  if Nat.ltb (List.length argv) 2 then
    usage ;;
    sys_exit 1
  else
    try_except
      (let disable_ssl :=
         String.eqb (Py.lower (getenv_default env "DISABLE_SSL_VERIFY" "false"))
                    "true" in
       __init__ None disable_ssl ;;
       let command := Py.lower (nth 1 argv "") in
       if String.eqb command "test" then
         test_connection ;;
         ret tt
       else if String.eqb command "get" && Nat.leb 3 (List.length argv) then
         let secret_name := nth 2 argv "" in
         v <- get_secret secret_name ;;
         if Py.truthy_opt v then
           print (secret_name ++ ": " ++ shown v)
         else
           print ("Secret '" ++ secret_name ++ "' not found or error occurred")
       else if String.eqb command "set" && Nat.leb 4 (List.length argv) then
         let secret_name := nth 2 argv "" in
         let secret_value := nth 3 argv "" in
         success <- set_secret secret_name secret_value ;;
         if negb success then sys_exit 1 else ret tt
       else if String.eqb command "list" then
         secrets <- list_secrets ;;
         match secrets with
         | _ :: _ =>
             print "Available secrets:" ;;
             for_each secrets (fun _ secret => print ("  - " ++ secret)) tt
         | [] => print "No secrets found or error occurred"
         end
       else if String.eqb command "get-multiple"
               && Nat.leb 3 (List.length argv) then
         let secret_names := skipn 2 argv in
         results <- get_multiple_secrets secret_names ;;
         for_each results
           (fun _ item =>
              if Py.truthy_opt (snd item) then
                print (fst item ++ ": " ++ shown (snd item))
              else
                print (fst item ++ ": [NOT FOUND]"))
           tt
       else
         print "Invalid command or missing arguments" ;;
         sys_exit 1)
      is_Exception
      (fun e =>
         print ("Error: " ++ exn_str e) ;;
         sys_exit 1).

(** The exit status of the process: 0 when [main] returns, the code of a
    [SystemExit], 1 for any other exception that leaves [main]. *)
Definition exit_code (argv : list string) : nat :=
  match fst (main argv initial) with
  | Ok _ => 0
  | Raise (SystemExit code) => code
  | Raise _ => 1
  end.

(** What the process has printed when it ends. *)
Definition output (argv : list string) : list string :=
  stdout (snd (main argv initial)).

End Client.

(** ** A reading of [urllib.parse] for the examples

    [urlsplit_hostname] follows [urlsplit] and the [hostname] property of its
    result on ASCII URLs: scheme, network location up to the first of
    [/ ? #], user information, brackets, port, lower case.  It leaves out the
    stripping of control characters and the checks on what is inside the
    brackets. *)

Module Urllib.

(** [s.partition(c)]: before the first [c], whether [c] was found, after. *)
Fixpoint partition (c : ascii) (s : string) : string * bool * string :=
  match s with
  | EmptyString => (EmptyString, false, EmptyString)
  | String a s' =>
      if Ascii.eqb a c then (EmptyString, true, s')
      else
        match partition c s' with
        | (before, found, after) => (String a before, found, after)
        end
  end.

(** The part of [s] after the last [c], all of [s] when there is none:
    the third component of [s.rpartition(c)]. *)
Fixpoint after_last (c : ascii) (s : string) : string :=
  match s with
  | EmptyString => EmptyString
  | String a s' =>
      match partition c s' with
      | (_, true, _) => after_last c s'
      | (_, false, _) => if Ascii.eqb a c then s' else s
      end
  end.

Definition is_alpha (a : ascii) : bool :=
  let n := nat_of_ascii a in
  (Nat.leb 65 n && Nat.leb n 90) || (Nat.leb 97 n && Nat.leb n 122).

Definition is_digit (a : ascii) : bool :=
  let n := nat_of_ascii a in Nat.leb 48 n && Nat.leb n 57.

(** [c in scheme_chars] *)
Definition is_scheme_char (a : ascii) : bool :=
  is_alpha a || is_digit a
  || Ascii.eqb a "+" || Ascii.eqb a "-" || Ascii.eqb a ".".

Fixpoint all_chars (p : ascii -> bool) (s : string) : bool :=
  match s with
  | EmptyString => true
  | String a s' => p a && all_chars p s'
  end.

Fixpoint has_char (c : ascii) (s : string) : bool :=
  match s with
  | EmptyString => false
  | String a s' => Ascii.eqb a c || has_char c s'
  end.

(** The URL once a leading scheme is taken off. *)
Definition drop_scheme (url : string) : string :=
  match partition ":" url, url with
  | (String a before, true, after), _ =>
      if is_alpha a && all_chars is_scheme_char (String a before)
      then after else url
  | _, _ => url
  end.

(** The text up to the first of [/ ? #]. *)
Fixpoint until_delim (s : string) : string :=
  match s with
  | EmptyString => EmptyString
  | String a s' =>
      if Ascii.eqb a "/" || Ascii.eqb a "?" || Ascii.eqb a "#"
      then EmptyString else String a (until_delim s')
  end.

(** [urlsplit(url).netloc] *)
Definition netloc (url : string) : string :=
  match drop_scheme url with
  | String "/" (String "/" rest) => until_delim rest
  | _ => EmptyString
  end.

(** [urlparse(url).hostname] *)
Definition urlsplit_hostname (url : string) : Result (option string) :=
  let loc := netloc url in
  if xorb (has_char "[" loc) (has_char "]" loc) then
    Raise (ValueError "Invalid IPv6 URL")
  else
    let hostinfo := after_last "@" loc in
    let host :=
      match partition "[" hostinfo with
      | (_, true, bracketed) => fst (fst (partition "]" bracketed))
      | (_, false, _) => fst (fst (partition ":" hostinfo))
      end in
    if String.eqb host "" then Ok None
    else
      match partition "%" host with
      | (h, true, zone) => Ok (Some (Py.lower h ++ "%" ++ zone))
      | (h, false, _) => Ok (Some (Py.lower h))
      end.

(** [ssl.create_default_context()] of a current interpreter. *)
Definition default_context : SSLContext :=
  {| check_hostname := true; verify_mode := CERT_REQUIRED;
     minimum_version := TLSv1_2 |}.

End Urllib.

(** ** Example environments *)

Module Examples.

(** A store with two secrets, one of them with an empty value; any other
    name is not found. *)
Definition store : Remote :=
  {| remote_get_secret := fun n =>
       if String.eqb n "db-password" then Ok {| value := Some "s3cret" |}
       else if String.eqb n "empty" then Ok {| value := Some "" |}
       else Raise (AzureError ResourceNotFoundError "(SecretNotFound)");
     remote_set_secret := fun _ v => Ok {| value := Some v |};
     remote_list_properties_of_secrets :=
       {| yielded := [ {| name := "db-password" |}; {| name := "empty" |} ];
          raised := None |} |}.

(** A store with no secrets. *)
Definition empty_store : Remote :=
  {| remote_get_secret := fun _ =>
       Raise (AzureError ResourceNotFoundError "(SecretNotFound)");
     remote_set_secret := fun _ v => Ok {| value := Some v |};
     remote_list_properties_of_secrets := {| yielded := []; raised := None |} |}.

(** A store that cannot be reached. *)
Definition unreachable : Remote :=
  {| remote_get_secret := fun _ =>
       Raise (AzureError ServiceRequestError "connection refused");
     remote_set_secret := fun _ _ =>
       Raise (AzureError ServiceRequestError "connection refused");
     remote_list_properties_of_secrets :=
       {| yielded := [];
          raised := Some (AzureError ServiceRequestError "connection refused") |} |}.

(** A store whose listing yields two names and then fails. *)
Definition flaky : Remote :=
  {| remote_get_secret := fun _ =>
       Raise (AzureError ServiceResponseError "connection reset");
     remote_set_secret := fun _ _ =>
       Raise (AzureError ServiceResponseError "connection reset");
     remote_list_properties_of_secrets :=
       {| yielded := [ {| name := "a" |}; {| name := "b" |} ];
          raised := Some (AzureError ServiceResponseError "connection reset") |} |}.

(** An environment that names the vault [url] and has a credential. *)
Definition env_with (url : string) (r : Remote) : Environment :=
  {| getenv := fun k =>
       if String.eqb k "AZURE_KEYVAULT_URL" then Some url else None;
     DefaultAzureCredential := Ok DefaultCredential;
     remote := r |}.

(** The same with [DISABLE_SSL_VERIFY] set to [toggle]. *)
Definition env_with_toggle (url toggle : string) (r : Remote) : Environment :=
  {| getenv := fun k =>
       if String.eqb k "AZURE_KEYVAULT_URL" then Some url
       else if String.eqb k "DISABLE_SSL_VERIFY" then Some toggle
       else None;
     DefaultAzureCredential := Ok DefaultCredential;
     remote := r |}.

(** An environment with no vault URL. *)
Definition env_empty : Environment :=
  {| getenv := fun _ => None;
     DefaultAzureCredential := Ok DefaultCredential;
     remote := empty_store |}.

Definition public_url : string := "https://myvault.vault.azure.net".

(** The program on the reading of [urllib.parse] above. *)
Definition run (env : Environment) (argv : list string) : list string * nat :=
  (output Urllib.urlsplit_hostname Urllib.default_context env argv,
   exit_code Urllib.urlsplit_hostname Urllib.default_context env argv).

(** A constructed client: the state after [__init__]. *)
Definition constructed (env : Environment) (url : option string) (flag : bool)
    : Result unit * State :=
  __init__ Urllib.urlsplit_hostname Urllib.default_context env url flag initial.

(** The state once a client for the public vault is constructed over the
    store [r]. *)
Definition ready (r : Remote) : State :=
  snd (constructed (env_with public_url r) None false).

(** A state whose object has its endpoint and override assigned, as
    [_create_transport] finds it. *)
Definition before_transport (url : string) (disable : bool) : State :=
  {| self := set_disable_ssl_verify disable (set_vault_url (Some url) blank);
     stdout := []; warnings_disabled := false |}.

End Examples.

(** ** Vocabulary of the properties *)

(** The two outcomes of the trust decision. *)
Inductive TrustDecision : Type := Strict | Relaxed.

(** The classifier's answer for a hostname. *)
Definition classify (hostname : string) : TrustDecision :=
  if is_internal hostname then Relaxed else Strict.

(** The decision recorded on a transport's session: its [verify] attribute
    as [_create_transport] set it.  What a request is verified with is
    [request_verify] below. *)
Definition trust_of (t : RequestsTransport) : TrustDecision :=
  if verify (session t) then Strict else Relaxed.

(** [s] begins with [p]; [s] ends with [suf]. *)
Definition begins_with (s p : string) : Prop := exists rest, s = p ++ rest.
Definition ends_with (s suf : string) : Prop := exists front, s = front ++ suf.

(** The policy as the specification words it: the private prefixes, the
    two local names, or anything outside the public-cloud suffix. *)
Definition spec_relaxed (hostname : string) : Prop :=
  begins_with hostname "10." \/
  begins_with hostname "192.168." \/
  begins_with hostname "172." \/
  hostname = "localhost" \/
  hostname = "127.0.0.1" \/
  ~ ends_with hostname ".azure.net".

(** A session enforces strict TLS for [url] when it verifies certificates
    and the adapter serving [url] carries an SSL context with hostname
    checking, required certificates and TLS 1.2 as the floor. *)
Definition enforces_strict_tls (s : Session) (url : string) : Prop :=
  verify s = true /\
  exists a ctx,
    get_adapter s url = Some a /\
    adapter_ssl_context a = Some ctx /\
    check_hostname ctx = true /\
    verify_mode ctx = CERT_REQUIRED /\
    minimum_version ctx = TLSv1_2.

(** The state with further lines printed. *)
Definition printed (st : State) (lines : list string) : State :=
  {| self := self st; stdout := (stdout st ++ lines)%list;
     warnings_disabled := warnings_disabled st |}.

(** The session [_create_transport] builds once the hostname is known. *)
Definition built_session (disable : bool) (hostname : string) : Session :=
  mount (set_verify Session_new (negb (disable || is_internal hostname)))
        "https://" HTTPAdapter_new.

(** The relaxed-TLS toggle of the environment:
    [os.getenv('DISABLE_SSL_VERIFY', 'false').lower() == 'true']. *)
Definition env_toggle (env : Environment) : bool :=
  String.eqb (Py.lower (getenv_default env "DISABLE_SSL_VERIFY" "false")) "true".

(** The steps of [__init__] from the credential on. *)
Definition init_rest (urlparse_hostname : string -> Result (option string))
    (create_default_context : SSLContext) (env : Environment) : M unit :=
  cred <- _get_credential env ;;
  assign (set_credential (Some cred)) ;;
  transport <- _create_transport urlparse_hostname create_default_context ;;
  url <- attr vault_url ;;
  cred <- attr credential ;;
  sdk <- lift (SecretClient_new env url cred transport) ;;
  assign (set_client (Some sdk)).

(** The endpoint [__init__] settles on for a given one. *)
Definition normalized (url : string) : string :=
  if Py.endswith url "/" then url else url ++ "/".

(** The object [__init__] leaves behind when every step goes through. *)
Definition built_client (env : Environment) (flag : bool) (u0 : string)
    (c : Credential) (h : string) : AzureKeyVaultClient :=
  let disable := flag || env_toggle env in
  {| vault_url := Some (normalized u0);
     disable_ssl_verify := disable;
     credential := Some c;
     client :=
       Some {| sc_vault_url := normalized u0;
               sc_credential := c;
               sc_transport := {| session := built_session disable h |};
               sc_remote := remote env |} |}.

(** A computation leaves the client object as it found it. *)
Definition keeps_self {A} (m : M A) : Prop :=
  forall st, self (snd (m st)) = self st.

(** What [get_secret] hands back for a name when the store answers with a
    secret or with an [AzureError]. *)
Definition fetched (r : Remote) (secret_name : string) : option string :=
  match remote_get_secret r secret_name with
  | Ok secret => value secret
  | Raise _ => None
  end.

(** The store reports its failures for [secret_name] as [AzureError]s. *)
Definition reports_failure_as_AzureError (r : Remote)
    (secret_name : string) : Prop :=
  forall e, remote_get_secret r secret_name = Raise e -> is_AzureError e = true.

(** The line the [get] command prints when it has no value to show. *)
Definition not_found_line (secret_name : string) : string :=
  "Secret '" ++ secret_name ++ "' not found or error occurred".

(** The line the [get-multiple] command prints for an entry. *)
Definition get_multiple_line (item : string * option string) : string :=
  if Py.truthy_opt (snd item) then fst item ++ ": " ++ shown (snd item)
  else fst item ++ ": [NOT FOUND]".

(** The lines of the usage message. *)
Definition usage_lines : list string :=
  ["Usage:";
   "  python keyvault_client.py test";
   "  python keyvault_client.py get <secret_name>";
   "  python keyvault_client.py set <secret_name> <secret_value>";
   "  python keyvault_client.py list";
   "  python keyvault_client.py get-multiple <secret1> <secret2> ...";
   Py.nl ++ "Environment variables:";
   "  DISABLE_SSL_VERIFY=true  # Disable SSL verification (testing only)"].

(** The guidance [_get_credential] raises when no credential is found. *)
Definition no_credentials_message : string :=
  "No valid credentials found. Please ensure you have:" ++ Py.nl
  ++ "1. Azure CLI installed and logged in (az login)" ++ Py.nl
  ++ "2. Or running in Azure with managed identity enabled" ++ Py.nl
  ++ "3. AZURE_KEYVAULT_URL set in environment variables".

(** [main] has a branch for this command line: a known command with the
    arguments it needs. *)
Definition dispatches (argv : list string) : bool :=
  let command := Py.lower (nth 1 argv "") in
  String.eqb command "test"
  || (String.eqb command "get" && Nat.leb 3 (List.length argv))
  || (String.eqb command "set" && Nat.leb 4 (List.length argv))
  || String.eqb command "list"
  || (String.eqb command "get-multiple" && Nat.leb 3 (List.length argv)).

(** The names of a list, each once, in the order of first occurrence. *)
Fixpoint first_occurrences (names : list string) : list string :=
  match names with
  | [] => []
  | n :: ns => n :: filter (fun m => negb (String.eqb m n)) (first_occurrences ns)
  end.

(** The keys of a dictionary after the names are assigned in turn. *)
Definition keys_after (ks names : list string) : list string :=
  fold_left (fun acc n => if Py.contains acc n then acc else (acc ++ [n])%list)
            names ks.

(** The one line [_create_transport] prints about its decision. *)
Definition transport_line (disable : bool) (hostname : string) : string :=
  if is_internal hostname then
    "Detected internal Key Vault (" ++ hostname ++ ") - SSL verification disabled"
  else if disable then
    "WARNING: SSL verification is disabled. This should only be used for testing."
  else "Configured for public Azure Key Vault (strict SSL verification)".

(** What a construction that goes through prints. *)
Definition init_lines (disable : bool) (u0 hostname : string) : list string :=
  (("Connecting to Key Vault: " ++ normalized u0)%string
   :: (if disable then ["WARNING: SSL verification is disabled"] else [])
   ++ [transport_line disable hostname])%list.

(** What [test_connection] prints when the listing raises [e]. *)
Definition test_failure_lines (e : exn) : list string :=
  ["Testing connection...";
   "✗ Connection to Azure Key Vault failed: " ++ exn_str e;
   Py.nl ++ "Troubleshooting suggestions:";
   "1. For internal Key Vaults, try setting DISABLE_SSL_VERIFY=true";
   "2. Verify your Azure credentials with 'az login'";
   "3. Check if the Key Vault URL is correct"].

(** What the [list] command prints for the names it got. *)
Definition list_lines (names : list string) : list string :=
  match names with
  | [] => ["No secrets found or error occurred"]
  | _ :: _ => "Available secrets:" :: map (fun secret => "  - " ++ secret) names
  end.

(** The line the [get] command prints for a value it shows. *)
Definition value_line (secret_name v : string) : string :=
  secret_name ++ ": " ++ v.

(** [transport.connection_config.verify]: the [connection_verify] keyword of
    the transport's constructor, [True] when it is not given.  The program
    constructs its transport as [RequestsTransport(session=session)], so the
    record holds the session and the configuration keeps its default. *)
Definition connection_verify (_ : RequestsTransport) : bool := true.

(** [merge_setting(request_setting, session_setting)] of requests for a
    setting that is not a dictionary: the request's own when it is given,
    the session's otherwise. *)
Definition merge_setting (request_setting : option bool) (session_setting : bool)
    : bool :=
  match request_setting with
  | Some b => b
  | None => session_setting
  end.

(** The [verify] a request sent through the transport is made with:
    [RequestsTransport.send] calls
    [session.request(..., verify=self.connection_config.verify)], and the
    session merges that with its own [verify]. *)
Definition request_verify (t : RequestsTransport) : bool :=
  merge_setting (Some (connection_verify t)) (verify (session t)).

(** ** Strings *)

Lemma startswith_spec (s p : string) :
  Py.startswith s p = true <-> begins_with s p.
Proof.
  unfold begins_with. revert s.
  induction p as [|b p IH]; intros s.
  - split; [intros _; now exists s | intros _; now destruct s].
  - destruct s as [|a s]; simpl.
    + split; [discriminate | intros [r Hr]; discriminate].
    + rewrite andb_true_iff, IH, Ascii.eqb_eq. split.
      * intros [-> [r ->]]. now exists r.
      * intros [r Hr]. injection Hr as -> ->. split; [reflexivity | now exists r].
Qed.

Lemma endswith_unfold (s suf : string) :
  Py.endswith s suf =
  String.eqb s suf ||
  match s with
  | EmptyString => false
  | String _ s' => Py.endswith s' suf
  end.
Proof. destruct s; reflexivity. Qed.

Lemma endswith_spec (s suf : string) :
  Py.endswith s suf = true <-> ends_with s suf.
Proof.
  unfold ends_with. split.
  - induction s as [|a s IH]; rewrite endswith_unfold, orb_true_iff.
    + intros [H | H]; [| discriminate].
      apply String.eqb_eq in H. subst. now exists "".
    + intros [H | H].
      * apply String.eqb_eq in H. subst. now exists "".
      * destruct (IH H) as [p ->]. now exists (String a p).
  - intros [p ->]. induction p as [|a p IH].
    + rewrite endswith_unfold. simpl. now rewrite String.eqb_refl.
    + rewrite endswith_unfold. simpl. rewrite IH. apply orb_true_r.
Qed.

Lemma contains_spec (xs : list string) (x : string) :
  Py.contains xs x = true <-> In x xs.
Proof.
  unfold Py.contains. rewrite existsb_exists. split.
  - intros [y [Hy Heq]]. apply String.eqb_eq in Heq. now subst.
  - intros H. exists x. split; [assumption | apply String.eqb_refl].
Qed.

(** The classifier's boolean is the specification's policy. *)
Lemma is_internal_spec (hostname : string) :
  is_internal hostname = true <-> spec_relaxed hostname.
Proof.
  unfold is_internal, spec_relaxed.
  rewrite !orb_true_iff, !startswith_spec, contains_spec, negb_true_iff.
  rewrite <- not_true_iff_false, endswith_spec. simpl.
  intuition (subst; auto).
Qed.

Lemma classify_relaxed (hostname : string) :
  classify hostname = Relaxed <-> spec_relaxed hostname.
Proof.
  unfold classify. rewrite <- is_internal_spec.
  destruct (is_internal hostname); split; congruence.
Qed.

Lemma classify_strict (hostname : string) :
  classify hostname = Strict <-> ~ spec_relaxed hostname.
Proof.
  unfold classify. rewrite <- is_internal_spec.
  destruct (is_internal hostname); split; congruence.
Qed.

Lemma normalized_ends_with_slash (url : string) :
  ends_with (normalized url) "/".
Proof.
  unfold normalized. destruct (Py.endswith url "/") eqn:E.
  - now apply endswith_spec.
  - now exists url.
Qed.

Lemma normalized_nonempty (url : string) : normalized url <> "".
Proof.
  unfold normalized. destruct (Py.endswith url "/") eqn:E.
  - intros ->. discriminate.
  - destruct url; discriminate.
Qed.

(** ** Equations of the monad *)

Ltac run_monad :=
  unfold bind, ret, raise, lift, attr, assign, print, expect, disable_warnings,
    try_except, sys_exit in *.

Section MonadEquations.

Context {A B : Type}.
Variables (f : A -> M B) (st : State).

Lemma bind_ret (a : A) : bind (ret a) f st = f a st.
Proof. reflexivity. Qed.

Lemma bind_raise (e : exn) : bind (raise e) f st = (Raise e, st).
Proof. reflexivity. Qed.

Lemma bind_lift_ok (a : A) : bind (lift (Ok a)) f st = f a st.
Proof. reflexivity. Qed.

Lemma bind_lift_raise (e : exn) : bind (lift (Raise e)) f st = (Raise e, st).
Proof. reflexivity. Qed.

Lemma bind_attr (g : AzureKeyVaultClient -> A) :
  bind (attr g) f st = f (g (self st)) st.
Proof. reflexivity. Qed.

Lemma bind_expect_some (method : string) (a : A) :
  bind (expect method (Some a)) f st = f a st.
Proof. reflexivity. Qed.

Lemma bind_run (m : M A) (a : A) (st' : State) :
  m st = (Ok a, st') -> bind m f st = f a st'.
Proof. intros H. unfold bind. now rewrite H. Qed.

Lemma bind_fail (m : M A) (e : exn) (st' : State) :
  m st = (Raise e, st') -> bind m f st = (Raise e, st').
Proof. intros H. unfold bind. now rewrite H. Qed.

End MonadEquations.

Section UnitEquations.

Context {B : Type}.
Variables (f : unit -> M B) (st : State).

Lemma bind_assign (g : AzureKeyVaultClient -> AzureKeyVaultClient) :
  bind (assign g) f st =
  f tt {| self := g (self st); stdout := stdout st;
          warnings_disabled := warnings_disabled st |}.
Proof. reflexivity. Qed.

Lemma bind_print (line : string) :
  bind (print line) f st = f tt (printed st [line]).
Proof. reflexivity. Qed.

Lemma bind_disable_warnings :
  bind disable_warnings f st =
  f tt {| self := self st; stdout := stdout st; warnings_disabled := true |}.
Proof. reflexivity. Qed.

End UnitEquations.

Lemma bind_bind {A B C} (m : M A) (f : A -> M B) (g : B -> M C) (st : State) :
  bind (bind m f) g st = bind m (fun a => bind (f a) g) st.
Proof. unfold bind. destruct (m st) as [[a | e] st']; reflexivity. Qed.

Lemma print_run (line : string) (st : State) :
  print line st = (Ok tt, printed st [line]).
Proof. reflexivity. Qed.

Lemma printed_printed (st : State) (xs ys : list string) :
  printed (printed st xs) ys = printed st (xs ++ ys).
Proof. unfold printed. cbn. now rewrite app_assoc. Qed.

Lemma printed_nil (st : State) : printed st [] = st.
Proof. destruct st. unfold printed. cbn. now rewrite app_nil_r. Qed.

Ltac msimpl :=
  cbn [self stdout warnings_disabled vault_url disable_ssl_verify credential
       client set_vault_url set_disable_ssl_verify set_credential set_client
       printed fst snd].

Ltac mstep :=
  first [ rewrite bind_ret | rewrite bind_attr | rewrite bind_assign
        | rewrite bind_print | rewrite bind_expect_some | rewrite bind_raise
        | rewrite bind_lift_ok | rewrite bind_lift_raise
        | rewrite bind_disable_warnings ];
  msimpl.

(** ** Running the constructor *)

Section Constructor.

Variable urlparse_hostname : string -> Result (option string).
Variable create_default_context : SSLContext.

Local Abbreviation create_transport :=
  (_create_transport urlparse_hostname create_default_context).
Local Abbreviation init := (__init__ urlparse_hostname create_default_context).

Lemma create_transport_run (st : State) (url h : string) :
  vault_url (self st) = Some url ->
  urlparse_hostname url = Ok (Some h) ->
  exists st',
    create_transport st =
      (Ok {| session := built_session (disable_ssl_verify (self st)) h |}, st')
    /\ self st' = self st
    /\ warnings_disabled st' =
         warnings_disabled st || (disable_ssl_verify (self st) || is_internal h).
Proof.
  intros Hurl Hparse.
  unfold _create_transport, built_session. run_monad.
  rewrite Hurl, Hparse. cbn.
  destruct (disable_ssl_verify (self st)), (is_internal h); cbn;
    eexists; repeat split; cbn;
    rewrite ?orb_true_r, ?orb_false_r; reflexivity.
Qed.

Lemma create_transport_no_hostname (st : State) :
  (vault_url (self st) = None \/
   exists url, vault_url (self st) = Some url /\ urlparse_hostname url = Ok None) ->
  create_transport st =
    (Raise (AttributeError "'NoneType' object has no attribute 'startswith'"), st).
Proof.
  intros [Hnone | [url [Hurl Hparse]]];
    unfold _create_transport; run_monad.
  - rewrite Hnone. reflexivity.
  - rewrite Hurl, Hparse. reflexivity.
Qed.

Lemma built_session_adapters (disable : bool) (h : string) :
  adapters (built_session disable h)
  = [("https://", HTTPAdapter_new); ("http://", HTTPAdapter_new)].
Proof. reflexivity. Qed.

(** Whatever transport the method returns, none of its adapters carries an
    SSL context. *)
Lemma create_transport_plain_adapters (st : State) (t : RequestsTransport)
    (st' : State) :
  create_transport st = (Ok t, st') ->
  forall prefix a, In (prefix, a) (adapters (session t)) ->
                   adapter_ssl_context a = None.
Proof.
  intros Hrun prefix a Hin.
  destruct (vault_url (self st)) as [url |] eqn:Hurl.
  - destruct (urlparse_hostname url) as [[h |] | e] eqn:Hparse.
    + destruct (create_transport_run st url h Hurl Hparse) as (s & Hs & _).
      rewrite Hs in Hrun. injection Hrun as <- _.
      cbn [session] in Hin. rewrite built_session_adapters in Hin.
      destruct Hin as [[= _ <-] | [[= _ <-] | []]]; reflexivity.
    + rewrite create_transport_no_hostname in Hrun by eauto. discriminate.
    + unfold _create_transport in Hrun. run_monad.
      rewrite Hurl, Hparse in Hrun. discriminate.
  - rewrite create_transport_no_hostname in Hrun by auto. discriminate.
Qed.

Lemma get_credential_run (env : Environment) (st : State) (c : Credential) :
  DefaultAzureCredential env = Ok c ->
  _get_credential env st = (Ok c, st).
Proof.
  intros H. unfold _get_credential. run_monad. now rewrite H.
Qed.

Lemma get_credential_fails (env : Environment) (st : State) (e : exn) :
  DefaultAzureCredential env = Raise e ->
  exists e' st', _get_credential env st = (Raise e', st').
Proof.
  intros H. unfold _get_credential. run_monad. rewrite H.
  destruct (is_Exception e); eauto.
Qed.

Lemma init_no_endpoint (env : Environment) (url_arg : option string)
    (flag : bool) (st : State) :
  Py.truthy_opt (Py.or_else url_arg (getenv env "AZURE_KEYVAULT_URL")) = false ->
  exists st',
    init env url_arg flag st =
      (Raise (ValueError
                "AZURE_KEYVAULT_URL not found in environment variables or .env file"),
       st')
    /\ stdout st' = stdout st.
Proof.
  intros H. unfold __init__. do 3 mstep. rewrite H. cbn [negb]. mstep.
  eexists. split; reflexivity.
Qed.

(** With an endpoint at hand [__init__] normalizes it, announces it and
    goes on to the credential. *)
Lemma init_prefix (env : Environment) (url_arg : option string) (flag : bool)
    (st : State) (u0 : string) :
  Py.or_else url_arg (getenv env "AZURE_KEYVAULT_URL") = Some u0 ->
  u0 <> "" ->
  exists s2,
    init env url_arg flag st = init_rest urlparse_hostname create_default_context env s2
    /\ self s2 = set_disable_ssl_verify (flag || env_toggle env)
                   (set_vault_url (Some (normalized u0)) (self st)).
Proof.
  intros Hurl Hne.
  apply String.eqb_neq in Hne.
  unfold __init__. fold (env_toggle env).
  fold (init_rest urlparse_hostname create_default_context env).
  rewrite Hurl. do 3 mstep.
  unfold Py.truthy_opt, Py.truthy. rewrite Hne. cbn [negb].
  do 3 mstep.
  assert (Hnorm : exists s1 : State,
             self s1 = set_disable_ssl_verify (flag || env_toggle env)
                         (set_vault_url (Some (normalized u0)) (self st))
             /\ forall k : unit -> M unit,
                 bind (if negb (Py.endswith u0 "/")
                       then assign (set_vault_url (Some (u0 ++ "/")))
                       else ret tt) k
                   {| self := set_disable_ssl_verify (flag || env_toggle env)
                                (set_vault_url (Some u0) (self st));
                      stdout := stdout st;
                      warnings_disabled := warnings_disabled st |}
                 = k tt s1).
  { unfold normalized. destruct (Py.endswith u0 "/"); cbn [negb];
      eexists; split; try (intros k; mstep; reflexivity); reflexivity. }
  destruct Hnorm as (s1 & Hs1 & Hk). rewrite Hk. clear Hk.
  mstep. rewrite Hs1. msimpl. do 3 mstep. rewrite Hs1. msimpl.
  destruct (flag || env_toggle env); mstep;
    eexists; (split; [reflexivity | msimpl; exact Hs1]).
Qed.

Lemma init_rest_run (env : Environment) (s2 : State) (u : string)
    (c : Credential) (h : string) :
  vault_url (self s2) = Some u ->
  DefaultAzureCredential env = Ok c ->
  urlparse_hostname u = Ok (Some h) ->
  exists st',
    init_rest urlparse_hostname create_default_context env s2 = (Ok tt, st')
    /\ self st' =
       set_client
         (Some {| sc_vault_url := u; sc_credential := c;
                  sc_transport :=
                    {| session := built_session (disable_ssl_verify (self s2)) h |};
                  sc_remote := remote env |})
         (set_credential (Some c) (self s2)).
Proof.
  intros Hurl Hcred Hparse. unfold init_rest.
  rewrite (bind_run _ _ _ _ _ (get_credential_run env s2 c Hcred)).
  mstep.
  match goal with
  | |- context [bind create_transport _ ?s] =>
      destruct (create_transport_run s u h) as (s3 & Hrun & Hs3 & _);
        [ msimpl; exact Hurl | exact Hparse | ]
  end.
  rewrite (bind_run _ _ _ _ _ Hrun).
  mstep. rewrite Hs3. msimpl. rewrite Hurl.
  mstep. rewrite Hs3. msimpl.
  cbn [SecretClient_new]. mstep.
  eexists. split; [reflexivity |].
  msimpl. rewrite Hs3. reflexivity.
Qed.

Lemma init_rest_no_hostname (env : Environment) (s2 : State) (u : string)
    (c : Credential) :
  vault_url (self s2) = Some u ->
  DefaultAzureCredential env = Ok c ->
  urlparse_hostname u = Ok None ->
  exists st',
    init_rest urlparse_hostname create_default_context env s2 =
      (Raise (AttributeError "'NoneType' object has no attribute 'startswith'"), st')
    /\ stdout st' = stdout s2
    /\ client (self st') = client (self s2).
Proof.
  intros Hurl Hcred Hparse. unfold init_rest.
  rewrite (bind_run _ _ _ _ _ (get_credential_run env s2 c Hcred)).
  mstep.
  erewrite bind_fail.
  2: { apply create_transport_no_hostname. right. exists u. msimpl. now split. }
  eexists. msimpl. repeat split.
Qed.

Lemma init_rest_fails (env : Environment) (s2 : State) (u : string) :
  vault_url (self s2) = Some u ->
  (forall c h, DefaultAzureCredential env = Ok c ->
               urlparse_hostname u = Ok (Some h) -> False) ->
  exists e st',
    init_rest urlparse_hostname create_default_context env s2 = (Raise e, st').
Proof.
  intros Hurl Hnot. unfold init_rest.
  destruct (DefaultAzureCredential env) as [c | e] eqn:Hcred.
  - rewrite (bind_run _ _ _ _ _ (get_credential_run env s2 c Hcred)).
    mstep.
    destruct (urlparse_hostname u) as [[h | ] | e] eqn:Hparse.
    + destruct (Hnot c h eq_refl eq_refl).
    + erewrite bind_fail.
      2: { apply create_transport_no_hostname. right. exists u. msimpl. now split. }
      eauto.
    + unfold _create_transport. cbv zeta. rewrite bind_bind. mstep.
      rewrite Hurl, bind_bind, Hparse. mstep. eauto.
  - destruct (get_credential_fails env s2 e Hcred) as (e' & st' & Hfail).
    rewrite (bind_fail _ _ _ _ _ Hfail). eauto.
Qed.

Lemma init_run (env : Environment) (url_arg : option string) (flag : bool)
    (st : State) (u0 : string) (c : Credential) (h : string) :
  Py.or_else url_arg (getenv env "AZURE_KEYVAULT_URL") = Some u0 ->
  u0 <> "" ->
  DefaultAzureCredential env = Ok c ->
  urlparse_hostname (normalized u0) = Ok (Some h) ->
  exists st',
    init env url_arg flag st = (Ok tt, st')
    /\ self st' = built_client env flag u0 c h.
Proof.
  intros Hurl Hne Hcred Hparse.
  destruct (init_prefix env url_arg flag st u0 Hurl Hne) as (s2 & -> & Hs2).
  destruct (init_rest_run env s2 (normalized u0) c h) as (st' & Hrun & Hst');
    [ now rewrite Hs2 | assumption | assumption | ].
  exists st'. split; [assumption |].
  rewrite Hst', Hs2. reflexivity.
Qed.

(** A construction that succeeds had an endpoint, a credential and a
    hostname. *)
Lemma init_inv (env : Environment) (url_arg : option string) (flag : bool)
    (st : State) :
  fst (init env url_arg flag st) = Ok tt ->
  exists u0 c h,
    Py.or_else url_arg (getenv env "AZURE_KEYVAULT_URL") = Some u0
    /\ u0 <> ""
    /\ DefaultAzureCredential env = Ok c
    /\ urlparse_hostname (normalized u0) = Ok (Some h).
Proof.
  intros Hok.
  destruct (Py.truthy_opt (Py.or_else url_arg (getenv env "AZURE_KEYVAULT_URL")))
    eqn:Htruthy.
  - destruct (Py.or_else url_arg (getenv env "AZURE_KEYVAULT_URL"))
      as [u0 |] eqn:Hurl; [| discriminate].
    assert (Hne : u0 <> "").
    { intros ->. discriminate. }
    destruct (init_prefix env url_arg flag st u0 Hurl Hne) as (s2 & Hinit & Hs2).
    rewrite Hinit in Hok.
    destruct (DefaultAzureCredential env) as [c | e] eqn:Hcred.
    + destruct (urlparse_hostname (normalized u0)) as [[h |] | e] eqn:Hparse.
      * exists u0, c, h. auto.
      * destruct (init_rest_fails env s2 (normalized u0)) as (e' & st' & Hfail).
        { now rewrite Hs2. }
        { intros c' h' _ Hh. rewrite Hparse in Hh. discriminate. }
        rewrite Hfail in Hok. discriminate.
      * destruct (init_rest_fails env s2 (normalized u0)) as (e' & st' & Hfail).
        { now rewrite Hs2. }
        { intros c' h' _ Hh. rewrite Hparse in Hh. discriminate. }
        rewrite Hfail in Hok. discriminate.
    + destruct (init_rest_fails env s2 (normalized u0)) as (e' & st' & Hfail).
      { now rewrite Hs2. }
      { intros c' h' Hc _. rewrite Hcred in Hc. discriminate. }
      rewrite Hfail in Hok. discriminate.
  - destruct (init_no_endpoint env url_arg flag st Htruthy) as (st' & Hfail & _).
    rewrite Hfail in Hok. discriminate.
Qed.

End Constructor.

(** ** Running the facade *)

Section Facade.

Variables (st : State) (sdk : SecretClient).
Hypothesis Hclient : client (self st) = Some sdk.

Lemma self_client_run {B} (k : SecretClient -> M B) :
  bind self_client k st = k sdk st.
Proof.
  unfold self_client. rewrite bind_bind. mstep. rewrite Hclient. now mstep.
Qed.

Lemma get_secret_ok (secret_name : string) (secret : KeyVaultSecret) :
  remote_get_secret (sc_remote sdk) secret_name = Ok secret ->
  get_secret secret_name st = (Ok (value secret), st).
Proof.
  intros H. unfold get_secret, try_except.
  rewrite self_client_run, H. reflexivity.
Qed.

Lemma get_secret_azure_error (secret_name : string) (e : exn) :
  remote_get_secret (sc_remote sdk) secret_name = Raise e ->
  is_AzureError e = true ->
  get_secret secret_name st =
    (Ok None,
     printed st ["Error retrieving secret '" ++ secret_name ++ "': " ++ exn_str e]).
Proof.
  intros H He. unfold get_secret, try_except.
  rewrite self_client_run, H. mstep. rewrite He. now mstep.
Qed.

Lemma get_secret_propagates (secret_name : string) (e : exn) :
  remote_get_secret (sc_remote sdk) secret_name = Raise e ->
  is_AzureError e = false ->
  get_secret secret_name st = (Raise e, st).
Proof.
  intros H He. unfold get_secret, try_except.
  rewrite self_client_run, H. mstep. now rewrite He.
Qed.

Lemma set_secret_ok (secret_name secret_value : string) (secret : KeyVaultSecret) :
  remote_set_secret (sc_remote sdk) secret_name secret_value = Ok secret ->
  set_secret secret_name secret_value st =
    (Ok true, printed st ["Secret '" ++ secret_name ++ "' set successfully"]).
Proof.
  intros H. unfold set_secret, try_except.
  rewrite self_client_run, H. mstep. now mstep.
Qed.

Lemma set_secret_azure_error (secret_name secret_value : string) (e : exn) :
  remote_set_secret (sc_remote sdk) secret_name secret_value = Raise e ->
  is_AzureError e = true ->
  set_secret secret_name secret_value st =
    (Ok false,
     printed st ["Error setting secret '" ++ secret_name ++ "': " ++ exn_str e]).
Proof.
  intros H He. unfold set_secret, try_except.
  rewrite self_client_run, H. mstep. rewrite He. now mstep.
Qed.

Lemma set_secret_propagates (secret_name secret_value : string) (e : exn) :
  remote_set_secret (sc_remote sdk) secret_name secret_value = Raise e ->
  is_AzureError e = false ->
  set_secret secret_name secret_value st = (Raise e, st).
Proof.
  intros H He. unfold set_secret, try_except.
  rewrite self_client_run, H. mstep. now rewrite He.
Qed.

End Facade.

(** A loop whose body only extends its accumulator. *)
Lemma for_each_collect {X Y} (g : X -> Y) (xs : list X) (acc : list Y) (st : State) :
  for_each xs (fun acc x => ret (acc ++ [g x])%list) acc st
  = (Ok (acc ++ map g xs)%list, st).
Proof.
  revert acc. induction xs as [| x xs IH]; intros acc; cbn [for_each map].
  - now rewrite app_nil_r.
  - mstep. rewrite IH, <- app_assoc. reflexivity.
Qed.

Lemma for_paged_collect {Y} (g : SecretProperties -> Y) (pager : ItemPaged)
    (st : State) :
  for_paged pager (fun acc x => ret (acc ++ [g x])%list) [] st
  = match raised pager with
    | Some e => (Raise e, st)
    | None => (Ok (map g (yielded pager)), st)
    end.
Proof.
  unfold for_paged.
  rewrite (bind_run _ _ _ _ _ (for_each_collect g (yielded pager) [] st)).
  cbn [app]. destruct (raised pager); reflexivity.
Qed.

Section Listing.

Variables (st : State) (sdk : SecretClient).
Hypothesis Hclient : client (self st) = Some sdk.

Local Abbreviation pager := (remote_list_properties_of_secrets (sc_remote sdk)).

Lemma list_secrets_ok :
  raised pager = None ->
  list_secrets st = (Ok (map name (yielded pager)), st).
Proof.
  intros H. unfold list_secrets, try_except. cbv zeta.
  rewrite (self_client_run st sdk Hclient), for_paged_collect, H. reflexivity.
Qed.

Lemma list_secrets_azure_error (e : exn) :
  raised pager = Some e ->
  is_AzureError e = true ->
  list_secrets st = (Ok [], printed st ["Error listing secrets: " ++ exn_str e]).
Proof.
  intros H He. unfold list_secrets, try_except. cbv zeta.
  rewrite (self_client_run st sdk Hclient), for_paged_collect, H, He.
  now mstep.
Qed.

Lemma test_connection_ok :
  raised pager = None ->
  test_connection st =
    (Ok true,
     printed st ["Testing connection...";
                 "✓ Connection to Azure Key Vault successful! Found "
                 ++ Py.str_of_nat (List.length (yielded pager)) ++ " secrets."]).
Proof.
  intros H. unfold test_connection, try_except. mstep.
  rewrite (self_client_run (printed st _) sdk Hclient).
  unfold list_of. erewrite bind_run.
  2: { rewrite (for_paged_collect (fun x => x)), H. reflexivity. }
  mstep. rewrite map_id. unfold ret. rewrite printed_printed. reflexivity.
Qed.

Lemma test_connection_fails (e : exn) :
  raised pager = Some e ->
  is_Exception e = true ->
  fst (test_connection st) = Ok false
  /\ self (snd (test_connection st)) = self st.
Proof.
  intros H He. unfold test_connection, try_except. mstep.
  rewrite (self_client_run (printed st _) sdk Hclient).
  unfold list_of. erewrite bind_fail.
  2: { rewrite (for_paged_collect (fun x => x)), H. reflexivity. }
  rewrite He. do 5 mstep. split; reflexivity.
Qed.

End Listing.

(** ** The methods leave the object alone *)

Section Frame.

Context {A : Type}.

Lemma keeps_ret (a : A) : keeps_self (ret a).
Proof. intros st. reflexivity. Qed.

Lemma keeps_raise (e : exn) : keeps_self (@raise A e).
Proof. intros st. reflexivity. Qed.

Lemma keeps_lift (r : Result A) : keeps_self (lift r).
Proof. intros st. reflexivity. Qed.

Lemma keeps_attr (g : AzureKeyVaultClient -> A) : keeps_self (attr g).
Proof. intros st. reflexivity. Qed.

Lemma keeps_bind {B} (m : M A) (f : A -> M B) :
  keeps_self m -> (forall a, keeps_self (f a)) -> keeps_self (bind m f).
Proof.
  intros Hm Hf st. unfold bind. specialize (Hm st).
  destruct (m st) as [[a | e] st']; cbn [snd] in *.
  - now rewrite Hf.
  - assumption.
Qed.

Lemma keeps_try (body : M A) (handles : exn -> bool) (handler : exn -> M A) :
  keeps_self body -> (forall e, keeps_self (handler e)) ->
  keeps_self (try_except body handles handler).
Proof.
  intros Hb Hh st. unfold try_except. specialize (Hb st).
  destruct (body st) as [[a | e] st']; cbn [snd] in *.
  - assumption.
  - destruct (handles e); cbn [snd]; [now rewrite Hh | assumption].
Qed.

Lemma keeps_for_each {X} (xs : list X) (body : A -> X -> M A) (a : A) :
  (forall a x, keeps_self (body a x)) -> keeps_self (for_each xs body a).
Proof.
  intros Hbody. revert a.
  induction xs as [| x xs IH]; intros a; cbn [for_each].
  - apply keeps_ret.
  - apply keeps_bind; auto.
Qed.

End Frame.

Lemma keeps_print (line : string) : keeps_self (print line).
Proof. intros st. reflexivity. Qed.

Lemma keeps_for_paged {A} (pager : ItemPaged) (body : A -> SecretProperties -> M A)
    (a : A) :
  (forall a x, keeps_self (body a x)) -> keeps_self (for_paged pager body a).
Proof.
  intros Hbody. unfold for_paged. apply keeps_bind.
  - now apply keeps_for_each.
  - intros a'. destruct (raised pager); [apply keeps_raise | apply keeps_ret].
Qed.

Ltac keeps :=
  repeat first
    [ apply keeps_ret | apply keeps_raise | apply keeps_lift | apply keeps_attr
    | apply keeps_print | apply keeps_bind | apply keeps_try
    | apply keeps_for_each | apply keeps_for_paged
    | match goal with
      | |- forall _, _ => intro
      | |- keeps_self (match ?x with _ => _ end) => destruct x
      end ].

Lemma self_client_keeps : keeps_self self_client.
Proof. unfold self_client. keeps. Qed.

Lemma get_secret_keeps (secret_name : string) : keeps_self (get_secret secret_name).
Proof. unfold get_secret. pose proof self_client_keeps. keeps; assumption. Qed.

Lemma set_secret_keeps (secret_name secret_value : string) :
  keeps_self (set_secret secret_name secret_value).
Proof. unfold set_secret. pose proof self_client_keeps. keeps; assumption. Qed.

Lemma list_secrets_keeps : keeps_self list_secrets.
Proof. unfold list_secrets. pose proof self_client_keeps. keeps; assumption. Qed.

Lemma test_connection_keeps : keeps_self test_connection.
Proof.
  unfold test_connection, list_of. pose proof self_client_keeps.
  keeps; assumption.
Qed.

Lemma get_multiple_secrets_keeps (secret_names : list string) :
  keeps_self (get_multiple_secrets secret_names).
Proof.
  unfold get_multiple_secrets. pose proof get_secret_keeps. keeps; auto.
Qed.

(** ** Dictionaries *)

Section Dict.

Context {V : Type}.

Lemma getitem_setitem (d : Py.dict V) (k k' : string) (v : V) :
  Py.getitem (Py.setitem d k v) k' =
  if String.eqb k k' then Some v else Py.getitem d k'.
Proof.
  induction d as [| [k0 v0] d IH]; cbn [Py.setitem Py.getitem].
  - reflexivity.
  - destruct (String.eqb k0 k) eqn:E0; cbn [Py.getitem].
    + apply String.eqb_eq in E0. subst k0.
      destruct (String.eqb k k'); reflexivity.
    + rewrite IH. destruct (String.eqb k0 k') eqn:E1; [| reflexivity].
      apply String.eqb_eq in E1. subst k0. now rewrite String.eqb_sym, E0.
Qed.

Lemma keys_setitem (d : Py.dict V) (k k' : string) (v : V) :
  In k' (Py.keys (Py.setitem d k v)) <-> k' = k \/ In k' (Py.keys d).
Proof.
  unfold Py.keys.
  induction d as [| [k0 v0] d IH]; cbn [Py.setitem map fst In].
  - intuition.
  - destruct (String.eqb k0 k) eqn:E0; cbn [map fst In].
    + apply String.eqb_eq in E0. subst k0. intuition.
    + rewrite IH. intuition.
Qed.

Lemma NoDup_keys_setitem (d : Py.dict V) (k : string) (v : V) :
  NoDup (Py.keys d) -> NoDup (Py.keys (Py.setitem d k v)).
Proof.
  induction d as [| [k0 v0] d IH]; cbn [Py.setitem]; intros Hnd.
  - repeat constructor. intros [].
  - destruct (String.eqb k0 k) eqn:E0.
    + exact Hnd.
    + unfold Py.keys in *. cbn [map fst] in *.
      inversion Hnd as [| x xs Hnotin Hrest]; subst.
      constructor; [| now apply IH].
      intros Hin. apply (keys_setitem d k k0 v) in Hin.
      destruct Hin as [-> | Hin]; [| contradiction].
      now rewrite String.eqb_refl in E0.
Qed.

Lemma getitem_In (d : Py.dict V) (k : string) (v : V) :
  Py.getitem d k = Some v -> In (k, v) d.
Proof.
  induction d as [| [k0 v0] d IH]; cbn [Py.getitem]; [discriminate |].
  destruct (String.eqb k0 k) eqn:E0.
  - apply String.eqb_eq in E0. intros [= ->]. subst. now left.
  - intros H. right. auto.
Qed.

Variable F : string -> V.

(** The dictionary a loop of [d[k] = F(k)] builds. *)
Lemma fold_setitem_getitem (ks : list string) (d : Py.dict V) (k : string) :
  (In k ks -> Py.getitem (fold_left (fun d k => Py.setitem d k (F k)) ks d) k
              = Some (F k))
  /\ (~ In k ks -> Py.getitem (fold_left (fun d k => Py.setitem d k (F k)) ks d) k
                   = Py.getitem d k).
Proof.
  revert d. induction ks as [| k0 ks IH]; intros d; cbn [fold_left In].
  - split; [intros [] | reflexivity].
  - destruct (IH (Py.setitem d k0 (F k0))) as [IHin IHout].
    destruct (in_dec string_dec k ks) as [Hin | Hnotin].
    + split; [intros _; auto | intros Hno; exfalso; apply Hno; now right].
    + split.
      * intros [-> | Hin]; [| contradiction].
        rewrite (IHout Hnotin), getitem_setitem, String.eqb_refl. reflexivity.
      * intros Hno. rewrite (IHout Hnotin), getitem_setitem.
        destruct (String.eqb k0 k) eqn:E; [| reflexivity].
        apply String.eqb_eq in E. subst. tauto.
Qed.

Lemma fold_setitem_keys (ks : list string) (d : Py.dict V) (k : string) :
  In k (Py.keys (fold_left (fun d k => Py.setitem d k (F k)) ks d))
  <-> In k (Py.keys d) \/ In k ks.
Proof.
  revert d. induction ks as [| k0 ks IH]; intros d; cbn [fold_left In].
  - tauto.
  - rewrite IH, keys_setitem. intuition.
Qed.

Lemma fold_setitem_NoDup (ks : list string) (d : Py.dict V) :
  NoDup (Py.keys d) ->
  NoDup (Py.keys (fold_left (fun d k => Py.setitem d k (F k)) ks d)).
Proof.
  revert d. induction ks as [| k0 ks IH]; intros d Hnd; cbn [fold_left].
  - exact Hnd.
  - apply IH. now apply NoDup_keys_setitem.
Qed.

End Dict.

(** ** Fetching several secrets *)

Lemma get_secret_fetched (st : State) (sdk : SecretClient) (secret_name : string) :
  client (self st) = Some sdk ->
  reports_failure_as_AzureError (sc_remote sdk) secret_name ->
  exists log,
    get_secret secret_name st = (Ok (fetched (sc_remote sdk) secret_name), printed st log).
Proof.
  intros Hclient Hrep. unfold fetched.
  destruct (remote_get_secret (sc_remote sdk) secret_name) as [secret | e] eqn:E.
  - exists []. rewrite printed_nil. now apply get_secret_ok with sdk.
  - eexists.
    exact (get_secret_azure_error st sdk Hclient secret_name e E (Hrep e E)).
Qed.

Lemma get_multiple_loop (sdk : SecretClient) (secret_names : list string) :
  (forall n, In n secret_names -> reports_failure_as_AzureError (sc_remote sdk) n) ->
  forall (st : State) (results : Py.dict (option string)),
    client (self st) = Some sdk ->
    exists log,
      for_each secret_names
        (fun results secret_name =>
           v <- get_secret secret_name ;;
           ret (Py.setitem results secret_name v))
        results st
      = (Ok (fold_left (fun d k => Py.setitem d k (fetched (sc_remote sdk) k))
                       secret_names results),
         printed st log).
Proof.
  induction secret_names as [| n ns IH]; intros Hrep st results Hclient;
    cbn [for_each fold_left].
  - exists []. now rewrite printed_nil.
  - destruct (get_secret_fetched st sdk n Hclient) as [log1 Hget].
    { apply Hrep. now left. }
    rewrite bind_bind, (bind_run _ _ _ _ _ Hget), bind_ret.
    destruct (IH (fun k Hk => Hrep k (or_intror Hk)) (printed st log1)
                 (Py.setitem results n (fetched (sc_remote sdk) n)) Hclient) as [log2 Hloop].
    rewrite Hloop, printed_printed. eauto.
Qed.

Lemma for_each_print {X} (line : X -> string) (xs : list X) (st : State) :
  for_each xs (fun _ x => print (line x)) tt st = (Ok tt, printed st (map line xs)).
Proof.
  revert st. induction xs as [| x xs IH]; intros st; cbn [for_each map].
  - now rewrite printed_nil.
  - rewrite bind_print, IH, printed_printed. reflexivity.
Qed.

(** The loop of the [get-multiple] command over the entries. *)
Lemma print_results (results : Py.dict (option string)) (st : State) :
  for_each results
    (fun _ item =>
       if Py.truthy_opt (snd item) then
         print (fst item ++ ": " ++ shown (snd item))
       else
         print (fst item ++ ": [NOT FOUND]"))
    tt st
  = (Ok tt, printed st (map get_multiple_line results)).
Proof.
  revert st. induction results as [| item results IH]; intros st;
    cbn [for_each map].
  - now rewrite printed_nil.
  - unfold get_multiple_line at 1.
    destruct (Py.truthy_opt (snd item));
      rewrite bind_print, IH, printed_printed; reflexivity.
Qed.

(** ** Running the command line *)

Section CommandLine.

Variable urlparse_hostname : string -> Result (option string).
Variable create_default_context : SSLContext.
Variable env : Environment.

Local Abbreviation init := (__init__ urlparse_hostname create_default_context env).
Local Abbreviation run_main := (main urlparse_hostname create_default_context env).

Variables (prog : string) (st1 : State).
Hypothesis Hinit : init None (env_toggle env) initial = (Ok tt, st1).

Lemma main_init_fails (argv : list string) (e : exn) (st' : State) :
  2 <= List.length argv ->
  init None (env_toggle env) initial = (Raise e, st') ->
  is_Exception e = true ->
  run_main argv initial =
    (Raise (SystemExit 1), printed st' ["Error: " ++ exn_str e]).
Proof.
  intros Hlen Hfail He. unfold main, try_except. cbv zeta.
  apply Nat.ltb_ge in Hlen. rewrite Hlen. fold (env_toggle env).
  rewrite (bind_fail _ _ _ _ _ Hfail), He. now mstep.
Qed.

Lemma main_get (secret_name : string) (v : option string) (st2 : State) :
  get_secret secret_name st1 = (Ok v, st2) ->
  run_main [prog; "get"; secret_name] initial =
    (Ok tt,
     printed st2
       [if Py.truthy_opt v then secret_name ++ ": " ++ shown v
        else "Secret '" ++ secret_name ++ "' not found or error occurred"]).
Proof.
  intros Hget. unfold main, try_except. cbv zeta.
  change (Nat.ltb (List.length [prog; "get"; secret_name]) 2) with false.
  cbv beta iota. fold (env_toggle env).
  rewrite (bind_run _ _ _ _ _ Hinit).
  change (Py.lower (nth 1 [prog; "get"; secret_name] "")) with "get".
  change ("get" =? "test") with false.
  change ("get" =? "get") with true.
  cbn [andb List.length Nat.leb nth].
  rewrite (bind_run _ _ _ _ _ Hget).
  destruct (Py.truthy_opt v); reflexivity.
Qed.

Lemma main_get_multiple (n : string) (ns : list string)
    (results : Py.dict (option string)) (st2 : State) :
  get_multiple_secrets (n :: ns) st1 = (Ok results, st2) ->
  run_main (prog :: "get-multiple" :: n :: ns) initial =
    (Ok tt, printed st2 (map get_multiple_line results)).
Proof.
  intros Hget. unfold main, try_except. cbv zeta.
  change (Nat.ltb (List.length (prog :: "get-multiple" :: n :: ns)) 2) with false.
  cbv beta iota. fold (env_toggle env).
  rewrite (bind_run _ _ _ _ _ Hinit).
  change (Py.lower (nth 1 (prog :: "get-multiple" :: n :: ns) "")) with "get-multiple".
  change ("get-multiple" =? "test") with false.
  change ("get-multiple" =? "get") with false.
  change ("get-multiple" =? "set") with false.
  change ("get-multiple" =? "list") with false.
  change ("get-multiple" =? "get-multiple") with true.
  cbn [andb List.length Nat.leb skipn].
  rewrite (bind_run _ _ _ _ _ Hget).
  rewrite print_results. reflexivity.
Qed.

End CommandLine.

(** * Properties *)

(** ** The trust classifier *)

Example hostname_of_public_vault :
  Urllib.urlsplit_hostname "https://myvault.vault.azure.net/"
  = Ok (Some "myvault.vault.azure.net").
Proof. reflexivity. Qed.

Example hostname_with_user_and_port :
  Urllib.urlsplit_hostname "HTTPS://user:pw@MyVault.Vault.Azure.net:443/x?y#z"
  = Ok (Some "myvault.vault.azure.net").
Proof. reflexivity. Qed.

Example hostname_without_scheme :
  Urllib.urlsplit_hostname "myvault.vault.azure.net/" = Ok None.
Proof. reflexivity. Qed.

Example classify_public_vault : classify "myvault.vault.azure.net" = Strict.
Proof. reflexivity. Qed.

Example classify_private_addresses :
  map classify ["10.0.0.4"; "192.168.1.10"; "172.217.4.4"; "localhost";
                "127.0.0.1"; "vault.internal.example"]
  = [Relaxed; Relaxed; Relaxed; Relaxed; Relaxed; Relaxed].
Proof. reflexivity. Qed.

(** C1.  With no override set, the transport built for a vault URL whose
    hostname is [h] is Relaxed exactly when [h] begins with "10.",
    "192.168." or "172.", or is "localhost" or "127.0.0.1", or does not end
    with ".azure.net"; for every other hostname it is Strict.  The decision
    the transport carries is the classifier's answer for [h]. *)
Theorem classifier_relaxed_exactly_when
    (urlparse_hostname : string -> Result (option string))
    (create_default_context : SSLContext) (st : State) (url h : string) :
  vault_url (self st) = Some url ->
  urlparse_hostname url = Ok (Some h) ->
  disable_ssl_verify (self st) = false ->
  exists t st',
    _create_transport urlparse_hostname create_default_context st = (Ok t, st')
    /\ trust_of t = classify h
    /\ (trust_of t = Relaxed <-> spec_relaxed h)
    /\ (trust_of t = Strict <-> ~ spec_relaxed h).
Proof.
  intros Hurl Hparse Hflag.
  destruct (create_transport_run urlparse_hostname create_default_context
              st url h Hurl Hparse) as (st' & Hrun & _ & _).
  rewrite Hflag in Hrun. cbn [orb] in Hrun.
  eexists. exists st'. split; [exact Hrun |].
  assert (Htrust : trust_of {| session := built_session false h |} = classify h).
  { unfold trust_of, classify, built_session. cbn [session mount verify set_verify orb].
    destruct (is_internal h); reflexivity. }
  rewrite Htrust. split; [reflexivity |].
  split; [apply classify_relaxed | apply classify_strict].
Qed.

Lemma classifier_relaxed_exactly_when_witness :
  exists t st',
    _create_transport Urllib.urlsplit_hostname Urllib.default_context
      (Examples.before_transport "https://myvault.vault.azure.net/" false)
    = (Ok t, st')
    /\ trust_of t = Strict.
Proof.
  destruct (classifier_relaxed_exactly_when
              Urllib.urlsplit_hostname Urllib.default_context
              (Examples.before_transport "https://myvault.vault.azure.net/" false)
              "https://myvault.vault.azure.net/" "myvault.vault.azure.net"
              eq_refl eq_refl eq_refl)
    as (t & st' & Hrun & Htrust & _).
  exists t, st'. split; [exact Hrun | rewrite Htrust; reflexivity].
Defined.

(** ** The override *)

(** The override reaches the session: with the flag passed or the
    environment toggle set, construction leaves [verify] off on the
    session of its transport, for every hostname. *)
Lemma override_clears_session_verify
    (urlparse_hostname : string -> Result (option string))
    (create_default_context : SSLContext) (env : Environment)
    (url_arg : option string) (flag : bool) (st : State)
    (u0 : string) (c : Credential) (h : string) :
  flag = true \/ env_toggle env = true ->
  Py.or_else url_arg (getenv env "AZURE_KEYVAULT_URL") = Some u0 ->
  u0 <> "" ->
  DefaultAzureCredential env = Ok c ->
  urlparse_hostname (normalized u0) = Ok (Some h) ->
  exists st' sdk,
    __init__ urlparse_hostname create_default_context env url_arg flag st
      = (Ok tt, st')
    /\ disable_ssl_verify (self st') = true
    /\ client (self st') = Some sdk
    /\ verify (session (sc_transport sdk)) = false.
Proof.
  intros Hover Hurl Hne Hcred Hparse.
  destruct (init_run urlparse_hostname create_default_context env url_arg flag
              st u0 c h Hurl Hne Hcred Hparse) as (st' & Hrun & Hself).
  assert (Hd : flag || env_toggle env = true).
  { destruct Hover as [-> | ->]; [reflexivity | apply orb_true_r]. }
  exists st'. eexists. split; [exact Hrun |].
  rewrite Hself. unfold built_client. cbn [disable_ssl_verify client].
  rewrite Hd. repeat split.
Qed.

(** The session's [verify] does not decide what a request is verified
    with: the transport passes its own setting on every request. *)
Lemma request_verify_ignores_session (t : RequestsTransport) :
  request_verify t = connection_verify t.
Proof. reflexivity. Qed.

(** C3.  With the override flag passed and the environment toggle set, for
    the public vault: construction prints that SSL verification is
    disabled and sets [verify] off on the session, but the transport it
    returns was given no [connection_verify], so every request it sends is
    still made with [verify=True]: certificate verification is not
    disabled. *)
Theorem override_leaves_request_verification_on :
  let env :=
    Examples.env_with_toggle Examples.public_url "true" Examples.store in
  exists st' sdk,
    Examples.constructed env None true = (Ok tt, st')
    /\ disable_ssl_verify (self st') = true
    /\ stdout st'
       = ["Connecting to Key Vault: https://myvault.vault.azure.net/";
          "WARNING: SSL verification is disabled";
          "WARNING: SSL verification is disabled. This should only be used for testing."]
    /\ client (self st') = Some sdk
    /\ verify (session (sc_transport sdk)) = false
    /\ connection_verify (sc_transport sdk) = true
    /\ request_verify (sc_transport sdk) = true.
Proof.
  cbv zeta. eexists. eexists.
  split; [vm_compute; reflexivity |].
  repeat split.
Qed.

(** ** URLs without a hostname *)

(** C10.  When the parse of the vault URL yields no hostname, transport
    creation raises an [AttributeError] and returns no transport, so the
    constructor never yields a client; once the credential is resolved the
    constructor ends in that same error, and [main] reports the error's own
    text and exits with 1. *)
Theorem no_hostname_raises_attribute_error
    (urlparse_hostname : string -> Result (option string))
    (create_default_context : SSLContext) (env : Environment)
    (url_arg : option string) (flag : bool) (st : State) (u0 : string) :
  Py.or_else url_arg (getenv env "AZURE_KEYVAULT_URL") = Some u0 ->
  u0 <> "" ->
  urlparse_hostname (normalized u0) = Ok None ->
  let no_attribute :=
    AttributeError "'NoneType' object has no attribute 'startswith'" in
  let constructed :=
    __init__ urlparse_hostname create_default_context env url_arg flag st in
  (forall s, vault_url (self s) = Some (normalized u0) ->
             _create_transport urlparse_hostname create_default_context s
             = (Raise no_attribute, s))
  /\ fst constructed <> Ok tt
  /\ (forall c, DefaultAzureCredential env = Ok c ->
        fst constructed = Raise no_attribute
        /\ client (self (snd constructed)) = client (self st)
        /\ (url_arg = None -> flag = env_toggle env -> st = initial ->
            forall argv, 2 <= List.length argv ->
              exit_code urlparse_hostname create_default_context env argv = 1
              /\ exists before,
                   output urlparse_hostname create_default_context env argv
                   = (before
                      ++ ["Error: 'NoneType' object has no attribute 'startswith'"])%list)).
Proof.
  intros Hurl Hne Hparse no_attribute constructed. subst constructed.
  split.
  { intros s Hs. apply create_transport_no_hostname. right. eauto. }
  split.
  { intros Hok.
    destruct (init_inv urlparse_hostname create_default_context env url_arg flag
                st Hok) as (u1 & c & h & Hurl1 & _ & _ & Hparse1).
    rewrite Hurl in Hurl1. injection Hurl1 as <-.
    rewrite Hparse in Hparse1. discriminate. }
  intros c Hcred.
  destruct (init_prefix urlparse_hostname create_default_context env url_arg flag
              st u0 Hurl Hne) as (s2 & Hinit & Hs2).
  destruct (init_rest_no_hostname urlparse_hostname create_default_context env
              s2 (normalized u0) c) as (st' & Hrest & Hout & Hcl);
    [ now rewrite Hs2 | assumption | assumption | ].
  rewrite Hinit, Hrest. cbn [fst snd].
  split; [reflexivity |].
  split; [rewrite Hcl, Hs2; reflexivity |].
  intros -> -> -> argv Hlen.
  rewrite Hrest in Hinit.
  pose proof (main_init_fails urlparse_hostname create_default_context env
                argv _ st' Hlen Hinit eq_refl) as Hmain.
  unfold exit_code, output. rewrite Hmain. cbn [fst snd printed stdout].
  split; [reflexivity |].
  now exists (stdout st').
Qed.

Lemma no_hostname_raises_attribute_error_witness :
  Urllib.urlsplit_hostname "myvault.vault.azure.net/" = Ok None
  /\ fst (Examples.constructed
            (Examples.env_with "myvault.vault.azure.net" Examples.store) None false)
     = Raise (AttributeError "'NoneType' object has no attribute 'startswith'")
  /\ Examples.run (Examples.env_with "myvault.vault.azure.net" Examples.store)
                  ["keyvault_client.py"; "list"]
     = (["Connecting to Key Vault: myvault.vault.azure.net/";
         "Error: 'NoneType' object has no attribute 'startswith'"], 1).
Proof.
  destruct (no_hostname_raises_attribute_error
              Urllib.urlsplit_hostname Urllib.default_context
              (Examples.env_with "myvault.vault.azure.net" Examples.store)
              None false initial "myvault.vault.azure.net"
              eq_refl ltac:(discriminate) eq_refl)
    as (_ & _ & Hcred).
  destruct (Hcred DefaultCredential eq_refl) as (Hinit & _ & _).
  split; [reflexivity |].
  split; [exact Hinit | reflexivity].
Defined.

(** ** The endpoint *)

(** C8.  A construction that succeeds leaves an endpoint that is not empty
    and ends with "/": the given one when it already ends so, the given one
    with "/" appended otherwise, and the SDK client is built on it.  With no
    endpoint given (none, or an empty one) construction raises a
    [ValueError] and [main] exits with 1.  No method of the client changes
    the object afterwards. *)
Theorem endpoint_normalized_and_kept
    (urlparse_hostname : string -> Result (option string))
    (create_default_context : SSLContext) (env : Environment)
    (url_arg : option string) (flag : bool) (st : State) :
  let given := Py.or_else url_arg (getenv env "AZURE_KEYVAULT_URL") in
  let constructed :=
    __init__ urlparse_hostname create_default_context env url_arg flag st in
  (fst constructed = Ok tt ->
     exists u0 sdk,
       given = Some u0 /\ u0 <> ""
       /\ vault_url (self (snd constructed)) = Some (normalized u0)
       /\ normalized u0 <> ""
       /\ ends_with (normalized u0) "/"
       /\ (ends_with u0 "/" -> normalized u0 = u0)
       /\ (~ ends_with u0 "/" -> normalized u0 = u0 ++ "/")
       /\ client (self (snd constructed)) = Some sdk
       /\ sc_vault_url sdk = normalized u0)
  /\ (Py.truthy_opt given = false ->
        fst constructed
        = Raise (ValueError
                   "AZURE_KEYVAULT_URL not found in environment variables or .env file")
        /\ (url_arg = None ->
            forall argv, 2 <= List.length argv ->
              exit_code urlparse_hostname create_default_context env argv = 1))
  /\ (forall (s : State) (secret_name secret_value : string)
             (secret_names : list string),
        self (snd (test_connection s)) = self s
        /\ self (snd (get_secret secret_name s)) = self s
        /\ self (snd (set_secret secret_name secret_value s)) = self s
        /\ self (snd (list_secrets s)) = self s
        /\ self (snd (get_multiple_secrets secret_names s)) = self s).
Proof.
  intros given constructed. subst given constructed.
  split; [| split].
  - intros Hok.
    destruct (init_inv urlparse_hostname create_default_context env url_arg flag
                st Hok) as (u0 & c & h & Hurl & Hne & Hcred & Hparse).
    destruct (init_run urlparse_hostname create_default_context env url_arg flag
                st u0 c h Hurl Hne Hcred Hparse) as (st' & Hrun & Hself).
    rewrite Hrun. cbn [snd]. rewrite Hself. unfold built_client.
    cbn [vault_url client].
    exists u0. eexists.
    repeat split; try reflexivity; try assumption.
    + apply normalized_nonempty.
    + apply normalized_ends_with_slash.
    + intros Hends. apply endswith_spec in Hends.
      unfold normalized. now rewrite Hends.
    + intros Hends. unfold normalized.
      destruct (Py.endswith u0 "/") eqn:E; [| reflexivity].
      apply endswith_spec in E. contradiction.
  - intros Hnone.
    destruct (init_no_endpoint urlparse_hostname create_default_context env
                url_arg flag st Hnone) as (st' & Hfail & _).
    rewrite Hfail. split; [reflexivity |].
    intros -> argv Hlen.
    destruct (init_no_endpoint urlparse_hostname create_default_context env
                None (env_toggle env) initial Hnone) as (st0 & Hfail0 & _).
    pose proof (main_init_fails urlparse_hostname create_default_context env
                  argv _ st0 Hlen Hfail0 eq_refl) as Hmain.
    unfold exit_code. now rewrite Hmain.
  - intros s secret_name secret_value secret_names.
    repeat split.
    + apply test_connection_keeps.
    + apply get_secret_keeps.
    + apply set_secret_keeps.
    + apply list_secrets_keeps.
    + apply get_multiple_secrets_keeps.
Qed.

Lemma endpoint_normalized_and_kept_witness :
  vault_url (self (snd (Examples.constructed
                          (Examples.env_with "https://v.example.com" Examples.store)
                          None false)))
  = Some "https://v.example.com/"
  /\ fst (Examples.constructed Examples.env_empty None false)
     = Raise (ValueError
                "AZURE_KEYVAULT_URL not found in environment variables or .env file").
Proof.
  split.
  - destruct (endpoint_normalized_and_kept
                Urllib.urlsplit_hostname Urllib.default_context
                (Examples.env_with "https://v.example.com" Examples.store)
                None false initial) as (Hok & _ & _).
    destruct (Hok eq_refl) as (u0 & sdk & Hgiven & _ & Hurl & _).
    injection Hgiven as <-. exact Hurl.
  - destruct (endpoint_normalized_and_kept
                Urllib.urlsplit_hostname Urllib.default_context
                Examples.env_empty None false initial) as (_ & Hnone & _).
    exact (proj1 (Hnone eq_refl)).
Defined.

(** ** The facade *)

(** C2.  When the store reports a failure, whatever its kind, [get_secret]
    returns [None] and [set_secret] returns [False]; neither raises, and
    two different failures give the same returned value.  [set_secret]
    returns [True] exactly when the store accepted the write. *)
Theorem provider_failures_collapse (st : State) (sdk : SecretClient)
    (secret_name secret_value : string) :
  client (self st) = Some sdk ->
  (forall kind msg,
     remote_get_secret (sc_remote sdk) secret_name = Raise (AzureError kind msg) ->
     fst (get_secret secret_name st) = Ok None)
  /\ (forall kind msg,
        remote_set_secret (sc_remote sdk) secret_name secret_value
        = Raise (AzureError kind msg) ->
        fst (set_secret secret_name secret_value st) = Ok false)
  /\ (fst (set_secret secret_name secret_value st) = Ok true <->
      exists secret,
        remote_set_secret (sc_remote sdk) secret_name secret_value = Ok secret)
  /\ (forall st2 sdk2 kind1 msg1 kind2 msg2,
        client (self st2) = Some sdk2 ->
        (remote_get_secret (sc_remote sdk) secret_name
         = Raise (AzureError kind1 msg1) ->
         remote_get_secret (sc_remote sdk2) secret_name
         = Raise (AzureError kind2 msg2) ->
         fst (get_secret secret_name st) = fst (get_secret secret_name st2))
        /\ (remote_set_secret (sc_remote sdk) secret_name secret_value
            = Raise (AzureError kind1 msg1) ->
            remote_set_secret (sc_remote sdk2) secret_name secret_value
            = Raise (AzureError kind2 msg2) ->
            fst (set_secret secret_name secret_value st)
            = fst (set_secret secret_name secret_value st2))).
Proof.
  intros Hclient.
  assert (Hget : forall s k (Hk : client (self s) = Some k) kind msg,
             remote_get_secret (sc_remote k) secret_name
             = Raise (AzureError kind msg) ->
             fst (get_secret secret_name s) = Ok None).
  { intros s k Hk kind msg H.
    now rewrite (get_secret_azure_error s k Hk secret_name _ H eq_refl). }
  assert (Hset : forall s k (Hk : client (self s) = Some k) kind msg,
             remote_set_secret (sc_remote k) secret_name secret_value
             = Raise (AzureError kind msg) ->
             fst (set_secret secret_name secret_value s) = Ok false).
  { intros s k Hk kind msg H.
    now rewrite (set_secret_azure_error s k Hk secret_name secret_value _ H eq_refl). }
  split; [exact (Hget st sdk Hclient) |].
  split; [exact (Hset st sdk Hclient) |].
  split.
  - split.
    + intros Htrue.
      destruct (remote_set_secret (sc_remote sdk) secret_name secret_value)
        as [secret | e] eqn:E; [now exists secret |].
      destruct (is_AzureError e) eqn:He.
      * rewrite (set_secret_azure_error st sdk Hclient _ _ _ E He) in Htrue.
        discriminate.
      * rewrite (set_secret_propagates st sdk Hclient _ _ _ E He) in Htrue.
        discriminate.
    + intros [secret E].
      now rewrite (set_secret_ok st sdk Hclient _ _ _ E).
  - intros st2 sdk2 kind1 msg1 kind2 msg2 Hclient2. split; intros H1 H2.
    + rewrite (Hget st sdk Hclient _ _ H1), (Hget st2 sdk2 Hclient2 _ _ H2).
      reflexivity.
    + rewrite (Hset st sdk Hclient _ _ H1), (Hset st2 sdk2 Hclient2 _ _ H2).
      reflexivity.
Qed.

Lemma provider_failures_collapse_witness :
  fst (get_secret "missing" (Examples.ready Examples.store)) = Ok None
  /\ fst (set_secret "k" "v" (Examples.ready Examples.unreachable)) = Ok false
  /\ fst (get_secret "missing" (Examples.ready Examples.store))
     = fst (get_secret "missing" (Examples.ready Examples.unreachable)).
Proof.
  destruct (provider_failures_collapse (Examples.ready Examples.store) _
              "missing" "v" eq_refl) as (Hget & _ & _ & Hsame).
  destruct (provider_failures_collapse (Examples.ready Examples.unreachable) _
              "k" "v" eq_refl) as (_ & Hset & _ & _).
  split; [exact (Hget _ _ eq_refl) |].
  split; [exact (Hset _ _ eq_refl) |].
  exact (proj1 (Hsame (Examples.ready Examples.unreachable) _ _ _ _ _ eq_refl)
           eq_refl eq_refl).
Defined.

(** C6.  When the listing fails with an error the store reports, at the
    first item or after some were yielded, [list_secrets] returns the empty
    list, the very value it returns for a reachable store with no
    secrets. *)
Theorem list_failure_looks_like_empty_store
    (st : State) (sdk : SecretClient) (e : exn)
    (st0 : State) (sdk0 : SecretClient) :
  client (self st) = Some sdk ->
  raised (remote_list_properties_of_secrets (sc_remote sdk)) = Some e ->
  is_AzureError e = true ->
  client (self st0) = Some sdk0 ->
  remote_list_properties_of_secrets (sc_remote sdk0)
  = {| yielded := []; raised := None |} ->
  fst (list_secrets st) = Ok []
  /\ fst (list_secrets st0) = Ok []
  /\ fst (list_secrets st) = fst (list_secrets st0).
Proof.
  intros Hclient Hraised He Hclient0 Hempty.
  rewrite (list_secrets_azure_error st sdk Hclient e Hraised He).
  rewrite (list_secrets_ok st0 sdk0 Hclient0) by now rewrite Hempty.
  rewrite Hempty. repeat split.
Qed.

Lemma list_failure_looks_like_empty_store_witness :
  fst (list_secrets (Examples.ready Examples.unreachable))
  = fst (list_secrets (Examples.ready Examples.empty_store)).
Proof.
  exact (proj2 (proj2 (list_failure_looks_like_empty_store
                         (Examples.ready Examples.unreachable) _ _
                         (Examples.ready Examples.empty_store) _
                         eq_refl eq_refl eq_refl eq_refl eq_refl))).
Defined.

Example list_drops_partial_results :
  fst (list_secrets (Examples.ready Examples.flaky)) = Ok [].
Proof. reflexivity. Qed.

(** C7.  [get_multiple_secrets] returns a dictionary whose keys are exactly
    the names asked for, each mapped to what [get_secret] returns for that
    name on its own; a name the store fails on gets [None] and the others
    keep their values. *)
Theorem get_multiple_is_get_per_name
    (st : State) (sdk : SecretClient) (secret_names : list string) :
  client (self st) = Some sdk ->
  (forall n, In n secret_names -> reports_failure_as_AzureError (sc_remote sdk) n) ->
  exists results st',
    get_multiple_secrets secret_names st = (Ok results, st')
    /\ (forall n, In n (Py.keys results) <-> In n secret_names)
    /\ NoDup (Py.keys results)
    /\ (forall n, In n secret_names ->
          exists v, fst (get_secret n st) = Ok v
                    /\ Py.getitem results n = Some v).
Proof.
  intros Hclient Hrep.
  destruct (get_multiple_loop sdk secret_names Hrep st [] Hclient) as [log Hloop].
  unfold get_multiple_secrets. cbv zeta. rewrite Hloop.
  eexists. eexists. split; [reflexivity |].
  split; [| split].
  - intros n. rewrite fold_setitem_keys. cbn. tauto.
  - apply fold_setitem_NoDup. constructor.
  - intros n Hin. exists (fetched (sc_remote sdk) n). split.
    + destruct (get_secret_fetched st sdk n Hclient (Hrep n Hin)) as [l ->].
      reflexivity.
    + now apply fold_setitem_getitem.
Qed.

Lemma get_multiple_is_get_per_name_witness :
  let asked := ["missing"; "db-password"; "empty"; "missing"] in
  exists results st',
    get_multiple_secrets asked (Examples.ready Examples.store) = (Ok results, st')
    /\ (forall n, In n (Py.keys results) <-> In n asked)
    /\ NoDup (Py.keys results)
    /\ (forall n, In n asked ->
          exists v, fst (get_secret n (Examples.ready Examples.store)) = Ok v
                    /\ Py.getitem results n = Some v).
Proof.
  apply (get_multiple_is_get_per_name (Examples.ready Examples.store) _
           ["missing"; "db-password"; "empty"; "missing"] eq_refl).
  intros n Hin e He. cbn in Hin.
  destruct Hin as [<- | [<- | [<- | [<- | []]]]];
    cbn in He; now inversion He.
Defined.

Example get_multiple_example :
  fst (get_multiple_secrets ["missing"; "db-password"; "empty"; "missing"]
         (Examples.ready Examples.store))
  = Ok [("missing", None); ("db-password", Some "s3cret"); ("empty", Some "")].
Proof. reflexivity. Qed.

(** ** The command line *)

(** C9.  A secret whose stored value is the empty string comes back from
    the facade as a value, not as [None], and the command line reports it
    as it reports an absent one: [get] prints the not-found line, the line
    a name that came back [None] gets, and [get-multiple] prints
    "[NOT FOUND]" for every name whose value is empty or [None]. *)
Theorem empty_value_reported_as_absent
    (urlparse_hostname : string -> Result (option string))
    (create_default_context : SSLContext) (env : Environment)
    (prog secret_name : string) (st1 : State) :
  __init__ urlparse_hostname create_default_context env None (env_toggle env)
    initial = (Ok tt, st1) ->
  remote_get_secret (remote env) secret_name = Ok {| value := Some "" |} ->
  let run := main urlparse_hostname create_default_context env in
  let out := output urlparse_hostname create_default_context env in
  fst (get_secret secret_name st1) = Ok (Some "")
  /\ run [prog; "get"; secret_name] initial
     = (Ok tt, printed st1 [not_found_line secret_name])
  /\ (forall other st2,
        get_secret other st1 = (Ok None, st2) ->
        run [prog; "get"; other] initial
        = (Ok tt, printed st2 [not_found_line other]))
  /\ (forall n ns,
        (forall k, In k (n :: ns) -> reports_failure_as_AzureError (remote env) k) ->
        forall k, In k (n :: ns) ->
                  fetched (remote env) k = Some "" \/ fetched (remote env) k = None ->
                  In (k ++ ": [NOT FOUND]") (out (prog :: "get-multiple" :: n :: ns)))
  /\ fetched (remote env) secret_name = Some "".
Proof.
  intros Hinit Hremote run out. subst run out.
  assert (Hclient : exists sdk,
             client (self st1) = Some sdk /\ sc_remote sdk = remote env).
  { assert (Hok : fst (__init__ urlparse_hostname create_default_context env
                         None (env_toggle env) initial) = Ok tt)
      by now rewrite Hinit.
    destruct (init_inv _ _ _ _ _ _ Hok) as (u0 & c & h & Hu & Hne & Hc & Hp).
    destruct (init_run urlparse_hostname create_default_context env None
                (env_toggle env) initial u0 c h Hu Hne Hc Hp)
      as (st' & Hrun & Hself).
    rewrite Hinit in Hrun. injection Hrun as <-.
    rewrite Hself. unfold built_client. cbn [client]. eauto. }
  destruct Hclient as (sdk & Hclient & Hsdk).
  assert (Hget : get_secret secret_name st1 = (Ok (Some ""), st1)).
  { apply (get_secret_ok st1 sdk Hclient secret_name {| value := Some "" |}).
    now rewrite Hsdk. }
  split; [now rewrite Hget |].
  split.
  { exact (main_get urlparse_hostname create_default_context env prog st1 Hinit
             secret_name (Some "") st1 Hget). }
  split.
  { intros other st2 Hother.
    exact (main_get urlparse_hostname create_default_context env prog st1 Hinit
             other None st2 Hother). }
  split.
  - intros n ns Hrep k Hin Hfetched.
    rewrite <- Hsdk in Hrep, Hfetched.
    destruct (get_multiple_loop sdk (n :: ns) Hrep st1 [] Hclient) as [log Hloop].
    pose proof (main_get_multiple urlparse_hostname create_default_context env
                  prog st1 Hinit n ns _ _ Hloop) as Hmain.
    unfold output. rewrite Hmain. cbn [snd printed stdout].
    apply in_or_app. right.
    pose proof (proj1 (fold_setitem_getitem (fetched (sc_remote sdk)) (n :: ns) [] k)
                  Hin) as Hitem.
    apply getitem_In in Hitem.
    apply (in_map get_multiple_line) in Hitem.
    unfold get_multiple_line at 1 in Hitem. cbn [fst snd] in Hitem.
    destruct Hfetched as [Hf | Hf]; rewrite Hf in Hitem; exact Hitem.
  - unfold fetched. now rewrite Hremote.
Qed.

Lemma empty_value_reported_as_absent_witness :
  fst (get_secret "empty" (Examples.ready Examples.store)) = Ok (Some "")
  /\ main Urllib.urlsplit_hostname Urllib.default_context
       (Examples.env_with Examples.public_url Examples.store)
       ["keyvault_client.py"; "get"; "empty"] initial
     = (Ok tt, printed (Examples.ready Examples.store) [not_found_line "empty"])
  /\ In ("empty" ++ ": [NOT FOUND]")
        (output Urllib.urlsplit_hostname Urllib.default_context
           (Examples.env_with Examples.public_url Examples.store)
           ["keyvault_client.py"; "get-multiple"; "db-password"; "empty"]).
Proof.
  assert (Hinit : __init__ Urllib.urlsplit_hostname Urllib.default_context
                    (Examples.env_with Examples.public_url Examples.store)
                    None
                    (env_toggle (Examples.env_with Examples.public_url Examples.store))
                    initial
                  = (Ok tt, Examples.ready Examples.store))
    by (vm_compute; reflexivity).
  destruct (empty_value_reported_as_absent
              Urllib.urlsplit_hostname Urllib.default_context
              (Examples.env_with Examples.public_url Examples.store)
              "keyvault_client.py" "empty" (Examples.ready Examples.store)
              Hinit eq_refl)
    as (Hfacade & Hget & _ & Hmany & _).
  split; [exact Hfacade |].
  split; [exact Hget |].
  refine (Hmany "db-password" ["empty"] _ "empty" _ _).
  - intros k Hk e He. cbn in Hk.
    destruct Hk as [<- | [<- | []]]; cbn in He; discriminate.
  - right. now left.
  - left. reflexivity.
Defined.

(** C4.  The exit status does not follow the operation's outcome: [test]
    against an unreachable vault, [get] of a missing secret and [list]
    against an unreachable vault report their failure and the process
    exits with 0, while a failed [set] exits with 1, as a usage error
    does. *)
Theorem exit_status_ignores_failed_operations :
  let reachable := Examples.env_with Examples.public_url Examples.store in
  let down := Examples.env_with Examples.public_url Examples.unreachable in
  fst (test_connection (Examples.ready Examples.unreachable)) = Ok false
  /\ snd (Examples.run down ["keyvault_client.py"; "test"]) = 0
  /\ fst (get_secret "missing" (Examples.ready Examples.store)) = Ok None
  /\ snd (Examples.run reachable ["keyvault_client.py"; "get"; "missing"]) = 0
  /\ fst (list_secrets (Examples.ready Examples.unreachable)) = Ok []
  /\ snd (Examples.run down ["keyvault_client.py"; "list"]) = 0
  /\ fst (set_secret "k" "v" (Examples.ready Examples.unreachable)) = Ok false
  /\ snd (Examples.run down ["keyvault_client.py"; "set"; "k"; "v"]) = 1
  /\ snd (Examples.run reachable ["keyvault_client.py"; "frobnicate"]) = 1
  /\ snd (Examples.run reachable ["keyvault_client.py"; "get"]) = 1
  /\ snd (Examples.run reachable ["keyvault_client.py"]) = 1
  /\ snd (Examples.run reachable ["keyvault_client.py"; "list"]) = 0.
Proof.
  cbv zeta. repeat split; vm_compute; reflexivity.
Qed.

(** C5.  For the public vault with no override the classifier says Strict
    and the session verifies certificates, but the SSL context the method
    configures (hostname check, required certificate, TLS 1.2 floor) is not
    part of what it returns: the adapter serving the vault carries no SSL
    context, so the session does not enforce the configured floor. *)
Theorem strict_context_never_reaches_session :
  let url := "https://myvault.vault.azure.net/" in
  exists st' sdk,
    Examples.constructed
      (Examples.env_with Examples.public_url Examples.store) None false
    = (Ok tt, st')
    /\ disable_ssl_verify (self st') = false
    /\ vault_url (self st') = Some url
    /\ Urllib.urlsplit_hostname url = Ok (Some "myvault.vault.azure.net")
    /\ classify "myvault.vault.azure.net" = Strict
    /\ client (self st') = Some sdk
    /\ verify (session (sc_transport sdk)) = true
    /\ get_adapter (session (sc_transport sdk)) url
       = Some {| adapter_ssl_context := None |}
    /\ ~ enforces_strict_tls (session (sc_transport sdk)) url.
Proof.
  cbv zeta. eexists. eexists.
  split; [vm_compute; reflexivity |].
  repeat split.
  intros (_ & a & ctx & Hadapter & Hctx & _).
  vm_compute in Hadapter. injection Hadapter as <-. discriminate.
Qed.

(** * Further properties *)

(** ** What the constructor prints *)

Section ConstructorLog.

Variable urlparse_hostname : string -> Result (option string).
Variable create_default_context : SSLContext.

Local Abbreviation create_transport :=
  (_create_transport urlparse_hostname create_default_context).
Local Abbreviation init := (__init__ urlparse_hostname create_default_context).

Lemma create_transport_log (st : State) (url h : string) :
  vault_url (self st) = Some url ->
  urlparse_hostname url = Ok (Some h) ->
  create_transport st =
    (Ok {| session := built_session (disable_ssl_verify (self st)) h |},
     {| self := self st;
        stdout := (stdout st ++ [transport_line (disable_ssl_verify (self st)) h])%list;
        warnings_disabled :=
          warnings_disabled st || (disable_ssl_verify (self st) || is_internal h) |}).
Proof.
  intros Hurl Hparse.
  unfold _create_transport, built_session, transport_line. run_monad.
  rewrite Hurl, Hparse. cbn.
  destruct (disable_ssl_verify (self st)), (is_internal h); cbn;
    rewrite ?orb_true_r, ?orb_false_r; reflexivity.
Qed.

Lemma init_log (env : Environment) (url_arg : option string) (flag : bool)
    (st : State) (u0 : string) (c : Credential) (h : string) :
  Py.or_else url_arg (getenv env "AZURE_KEYVAULT_URL") = Some u0 ->
  u0 <> "" ->
  DefaultAzureCredential env = Ok c ->
  urlparse_hostname (normalized u0) = Ok (Some h) ->
  init env url_arg flag st =
    (Ok tt,
     {| self := built_client env flag u0 c h;
        stdout := (stdout st ++ init_lines (flag || env_toggle env) u0 h)%list;
        warnings_disabled :=
          warnings_disabled st || ((flag || env_toggle env) || is_internal h) |}).
Proof.
  intros Hurl Hne Hcred Hparse.
  apply String.eqb_neq in Hne.
  unfold __init__, built_client, init_lines. fold (env_toggle env).
  rewrite Hurl. do 3 mstep.
  unfold Py.truthy_opt, Py.truthy. rewrite Hne. cbn [negb].
  do 3 mstep.
  unfold normalized in *.
  destruct (Py.endswith u0 "/") eqn:Eslash; cbn [negb];
    destruct (flag || env_toggle env) eqn:Ed.
  all: repeat mstep.
  all: rewrite (bind_run _ _ _ _ _ (get_credential_run env _ c Hcred)); mstep.
  all: erewrite bind_run;
    [| eapply create_transport_log; [msimpl; reflexivity | exact Hparse]].
  all: msimpl; repeat mstep; cbn [SecretClient_new]; mstep.
  all: unfold assign; msimpl.
  all: rewrite <- ?app_assoc; reflexivity.
Qed.

End ConstructorLog.

(** ** Lists and dictionaries, further *)

Lemma lower_char_idempotent (c : ascii) :
  Py.lower_char (Py.lower_char c) = Py.lower_char c.
Proof.
  destruct c as [[] [] [] [] [] [] [] []]; reflexivity.
Qed.

Lemma lower_idempotent (s : string) : Py.lower (Py.lower s) = Py.lower s.
Proof.
  induction s as [| c s IH]; cbn [Py.lower]; [reflexivity |].
  now rewrite lower_char_idempotent, IH.
Qed.

Lemma filter_and {X} (p q : X -> bool) (l : list X) :
  filter (fun x => p x && q x) l = filter p (filter q l).
Proof.
  induction l as [| x l IH]; cbn [filter]; [reflexivity |].
  destruct (q x); cbn [filter]; rewrite ?andb_true_r, ?andb_false_r.
  - destruct (p x); now rewrite IH.
  - exact IH.
Qed.

Lemma filter_all {X} (p : X -> bool) (l : list X) :
  (forall x, p x = true) -> filter p l = l.
Proof.
  intros Hp. induction l as [| x l IH]; cbn [filter]; [reflexivity |].
  now rewrite Hp, IH.
Qed.

Lemma contains_app (xs ys : list string) (x : string) :
  Py.contains (xs ++ ys) x = Py.contains xs x || Py.contains ys x.
Proof. unfold Py.contains. apply existsb_app. Qed.

Lemma keys_setitem_eq {V} (d : Py.dict V) (k : string) (v : V) :
  Py.keys (Py.setitem d k v) =
  if Py.contains (Py.keys d) k then Py.keys d else (Py.keys d ++ [k])%list.
Proof.
  unfold Py.keys, Py.contains.
  induction d as [| [k0 v0] d IH]; cbn [Py.setitem map fst existsb app].
  - reflexivity.
  - rewrite (String.eqb_sym k k0).
    destruct (String.eqb k0 k); cbn [map fst orb].
    + reflexivity.
    + rewrite IH. now destruct (existsb (String.eqb k) (map fst d)).
Qed.

Lemma keys_after_spec (names ks : list string) :
  keys_after ks names =
  (ks ++ filter (fun m => negb (Py.contains ks m)) (first_occurrences names))%list.
Proof.
  unfold keys_after. revert ks.
  induction names as [| n ns IH]; intros ks;
    cbn [fold_left first_occurrences filter].
  - now rewrite app_nil_r.
  - rewrite IH. destruct (Py.contains ks n) eqn:Hn; cbn [negb].
    + f_equal. rewrite <- filter_and. apply filter_ext. intros m.
      destruct (String.eqb m n) eqn:E; cbn [negb];
        rewrite ?andb_true_r, ?andb_false_r; [| reflexivity].
      apply String.eqb_eq in E. subst m. now rewrite Hn.
    + rewrite <- app_assoc. cbn [app]. do 2 f_equal.
      rewrite <- filter_and. apply filter_ext. intros m.
      rewrite contains_app. unfold Py.contains at 2. cbn [existsb].
      rewrite orb_false_r, negb_orb. reflexivity.
Qed.

Lemma keys_after_nil (names : list string) :
  keys_after [] names = first_occurrences names.
Proof.
  rewrite keys_after_spec. cbn [app]. now apply filter_all.
Qed.

Lemma In_setitem {V} (d : Py.dict V) (k : string) (v : V) (kv : string * V) :
  In kv (Py.setitem d k v) -> kv = (k, v) \/ In kv d.
Proof.
  induction d as [| [k0 v0] d IH]; cbn [Py.setitem In].
  - intros [<- | []]. now left.
  - destruct (String.eqb k0 k) eqn:E; cbn [In].
    + apply String.eqb_eq in E. subst k0. intros [<- | H]; auto.
    + intros [<- | H]; auto. destruct (IH H); auto.
Qed.

(** A dictionary filled by [d[k] = F(k)] is its keys paired with [F]. *)
Lemma fold_setitem_entries {V} (F : string -> V) (ks : list string) :
  fold_left (fun d k => Py.setitem d k (F k)) ks []
  = map (fun k => (k, F k)) (first_occurrences ks).
Proof.
  assert (Hall : forall ks d,
             (forall kv, In kv d -> snd kv = F (fst kv)) ->
             forall kv, In kv (fold_left (fun d k => Py.setitem d k (F k)) ks d) ->
                        snd kv = F (fst kv)).
  { clear ks. induction ks as [| k ks IH]; intros d Hd kv; cbn [fold_left].
    - apply Hd.
    - apply IH. intros kv' Hin. apply In_setitem in Hin.
      destruct Hin as [-> | Hin]; [reflexivity | now apply Hd]. }
  assert (Hkeys : forall ks d,
             Py.keys (fold_left (fun d k => Py.setitem d k (F k)) ks d)
             = keys_after (Py.keys d) ks).
  { clear ks Hall. unfold keys_after.
    induction ks as [| k ks IH]; intros d; cbn [fold_left]; [reflexivity |].
    now rewrite IH, keys_setitem_eq. }
  rewrite <- keys_after_nil.
  change (@nil string) with (Py.keys (@nil (string * V))).
  rewrite <- Hkeys. unfold Py.keys. rewrite map_map.
  specialize (Hall ks [] (fun kv H => match H with end)).
  induction (fold_left (fun d k => Py.setitem d k (F k)) ks []) as [| [k v] d IH];
    cbn [map fst]; [reflexivity |].
  pose proof (Hall (k, v) (or_introl eq_refl)) as Hv. cbn [fst snd] in Hv.
  rewrite <- Hv. f_equal.
  apply IH. intros kv Hin. apply Hall. now right.
Qed.

(** ** Loops, further *)

Lemma for_each_app {S X} (xs ys : list X) (body : S -> X -> M S) (s : S)
    (st : State) :
  for_each (xs ++ ys) body s st
  = bind (for_each xs body s) (fun s' => for_each ys body s') st.
Proof.
  revert s st. induction xs as [| x xs IH]; intros s st; cbn [app for_each].
  - reflexivity.
  - rewrite bind_bind.
    destruct (body s x st) as [[s1 | e] st1] eqn:E.
    + rewrite !(bind_run _ _ _ _ _ E). apply IH.
    + now rewrite !(bind_fail _ _ _ _ _ E).
Qed.

(** The keys of the dictionary the loop of [get_multiple_secrets] returns. *)
Lemma get_multiple_loop_keys (secret_names : list string) :
  forall (results : Py.dict (option string)) (st : State)
         (final : Py.dict (option string)) (st' : State),
    for_each secret_names
      (fun results secret_name =>
         v <- get_secret secret_name ;;
         ret (Py.setitem results secret_name v))
      results st = (Ok final, st') ->
    Py.keys final = keys_after (Py.keys results) secret_names.
Proof.
  unfold keys_after.
  induction secret_names as [| n ns IH]; intros results st final st' Hrun;
    cbn [for_each fold_left] in *.
  - injection Hrun as <- _. reflexivity.
  - rewrite bind_bind in Hrun.
    destruct (get_secret n st) as [[v | e] s] eqn:Hget.
    + rewrite (bind_run _ _ _ _ _ Hget), bind_ret in Hrun.
      apply IH in Hrun. now rewrite Hrun, keys_setitem_eq.
    + rewrite (bind_fail _ _ _ _ _ Hget) in Hrun. discriminate.
Qed.

(** ** The facade, further *)

Lemma list_secrets_propagates (st : State) (sdk : SecretClient) (e : exn) :
  client (self st) = Some sdk ->
  raised (remote_list_properties_of_secrets (sc_remote sdk)) = Some e ->
  is_AzureError e = false ->
  list_secrets st = (Raise e, st).
Proof.
  intros Hclient H He. unfold list_secrets, try_except. cbv zeta.
  now rewrite (self_client_run st sdk Hclient), for_paged_collect, H, He.
Qed.

Lemma test_connection_fails_log (st : State) (sdk : SecretClient) (e : exn) :
  client (self st) = Some sdk ->
  raised (remote_list_properties_of_secrets (sc_remote sdk)) = Some e ->
  is_Exception e = true ->
  test_connection st = (Ok false, printed st (test_failure_lines e)).
Proof.
  intros Hclient H He. unfold test_connection, try_except. mstep.
  rewrite (self_client_run (printed st _) sdk Hclient).
  unfold list_of. erewrite bind_fail.
  2: { rewrite (for_paged_collect (fun x => x)), H. reflexivity. }
  rewrite He. do 5 mstep. unfold ret, test_failure_lines.
  rewrite !printed_printed. reflexivity.
Qed.

(** X1.  [test_connection] answers with a boolean for whatever exception
    the listing raises, an [AzureError] or any other [Exception]: [True]
    and the number of secrets found when the listing completes, [False] and
    the troubleshooting text when it raises. *)
Theorem test_connection_answers_with_a_boolean (st : State) (sdk : SecretClient) :
  client (self st) = Some sdk ->
  let pager := remote_list_properties_of_secrets (sc_remote sdk) in
  (raised pager = None ->
   test_connection st =
     (Ok true,
      printed st
        ["Testing connection...";
         "✓ Connection to Azure Key Vault successful! Found "
         ++ Py.str_of_nat (List.length (yielded pager)) ++ " secrets."]))
  /\ (forall e, raised pager = Some e -> is_Exception e = true ->
        test_connection st = (Ok false, printed st (test_failure_lines e))).
Proof.
  intros Hclient pager. split.
  - now apply test_connection_ok.
  - intros e He Hexc. now apply test_connection_fails_log with sdk.
Qed.

Lemma test_connection_answers_with_a_boolean_witness :
  fst (test_connection (Examples.ready Examples.store)) = Ok true
  /\ test_connection (Examples.ready Examples.flaky)
     = (Ok false,
        printed (Examples.ready Examples.flaky)
          (test_failure_lines (AzureError ServiceResponseError "connection reset"))).
Proof.
  destruct (test_connection_answers_with_a_boolean
              (Examples.ready Examples.store) _ eq_refl) as [Hok _].
  destruct (test_connection_answers_with_a_boolean
              (Examples.ready Examples.flaky) _ eq_refl) as [_ Hfail].
  split.
  - now rewrite (Hok eq_refl).
  - exact (Hfail _ eq_refl eq_refl).
Defined.

(** X2.  An exception that is not an [AzureError] is not absorbed by the
    facade: [get_secret], [set_secret] and [list_secrets] raise it on to
    the caller and print nothing, and [get_multiple_secrets] stops at the
    first name that raises it and returns no dictionary at all. *)
Theorem other_exceptions_leave_the_facade (st : State) (sdk : SecretClient)
    (e : exn) :
  client (self st) = Some sdk ->
  is_AzureError e = false ->
  (forall n, remote_get_secret (sc_remote sdk) n = Raise e ->
             get_secret n st = (Raise e, st))
  /\ (forall k v, remote_set_secret (sc_remote sdk) k v = Raise e ->
                  set_secret k v st = (Raise e, st))
  /\ (raised (remote_list_properties_of_secrets (sc_remote sdk)) = Some e ->
      list_secrets st = (Raise e, st))
  /\ (forall before n after,
        (forall m, In m before -> reports_failure_as_AzureError (sc_remote sdk) m) ->
        remote_get_secret (sc_remote sdk) n = Raise e ->
        fst (get_multiple_secrets (before ++ n :: after) st) = Raise e).
Proof.
  intros Hclient He.
  split; [intros n H; now apply get_secret_propagates with sdk |].
  split; [intros k v H; now apply set_secret_propagates with sdk |].
  split; [intros H; now apply list_secrets_propagates with sdk |].
  intros before n after Hrep Hn.
  unfold get_multiple_secrets. cbv zeta. rewrite for_each_app.
  destruct (get_multiple_loop sdk before Hrep st [] Hclient) as [log Hloop].
  rewrite (bind_run _ _ _ _ _ Hloop). cbn [for_each].
  rewrite bind_bind.
  rewrite (bind_fail _ _ _ _ _
             (get_secret_propagates (printed st log) sdk Hclient n e Hn He)).
  reflexivity.
Qed.

Lemma other_exceptions_leave_the_facade_witness :
  let broken :=
    {| remote_get_secret := fun n =>
         if String.eqb n "odd" then Raise (OtherException "not a secret name")
         else Raise (AzureError ResourceNotFoundError "(SecretNotFound)");
       remote_set_secret := fun _ v => Ok {| value := Some v |};
       remote_list_properties_of_secrets := {| yielded := []; raised := None |} |} in
  get_secret "odd" (Examples.ready broken)
  = (Raise (OtherException "not a secret name"), Examples.ready broken)
  /\ fst (get_multiple_secrets (["a"; "b"] ++ "odd" :: ["c"]) (Examples.ready broken))
     = Raise (OtherException "not a secret name").
Proof.
  intros broken.
  destruct (other_exceptions_leave_the_facade
              (Examples.ready broken) _ (OtherException "not a secret name")
              eq_refl eq_refl) as (Hget & _ & _ & Hmany).
  split.
  - exact (Hget "odd" eq_refl).
  - apply (Hmany ["a"; "b"] "odd" ["c"]); [| reflexivity].
    intros m Hm e' He'. cbn in Hm.
    destruct Hm as [<- | [<- | []]]; cbn in He'; now inversion He'.
Defined.

(** X3.  Whenever [get_multiple_secrets] returns, the keys of its
    dictionary are the requested names in the order of their first
    occurrence, each name once however often it was asked for. *)
Theorem get_multiple_keeps_first_occurrence_order
    (st : State) (secret_names : list string)
    (results : Py.dict (option string)) (st' : State) :
  get_multiple_secrets secret_names st = (Ok results, st') ->
  Py.keys results = first_occurrences secret_names.
Proof.
  intros Hrun. unfold get_multiple_secrets in Hrun. cbv zeta in Hrun.
  apply get_multiple_loop_keys in Hrun. cbn [Py.keys map] in Hrun.
  now rewrite Hrun, keys_after_nil.
Qed.

Lemma get_multiple_keeps_first_occurrence_order_witness :
  Py.keys [("missing", None); ("db-password", Some "s3cret"); ("empty", Some "")]
  = first_occurrences ["missing"; "db-password"; "missing"; "empty"; "db-password"].
Proof.
  apply (get_multiple_keeps_first_occurrence_order
           (Examples.ready Examples.store)
           ["missing"; "db-password"; "missing"; "empty"; "db-password"]
           _
           (snd (get_multiple_secrets
                   ["missing"; "db-password"; "missing"; "empty"; "db-password"]
                   (Examples.ready Examples.store)))).
  vm_compute. reflexivity.
Defined.

(** ** The constructor, further *)





(** X6.  When no credential can be obtained, [_get_credential] prints the
    cause and raises a [ValueError] carrying the guidance text; the
    constructor ends in that error without a client, and [main] prints
    "Error: " with the guidance and exits with 1. *)
Theorem missing_credential_is_fatal
    (urlparse_hostname : string -> Result (option string))
    (create_default_context : SSLContext) (env : Environment)
    (url_arg : option string) (flag : bool) (st : State)
    (u0 : string) (e : exn) :
  Py.or_else url_arg (getenv env "AZURE_KEYVAULT_URL") = Some u0 ->
  u0 <> "" ->
  DefaultAzureCredential env = Raise e ->
  is_Exception e = true ->
  let cause := "DefaultAzureCredential failed: " ++ exn_str e in
  let constructed :=
    __init__ urlparse_hostname create_default_context env url_arg flag st in
  (forall s, _get_credential env s
             = (Raise (ValueError no_credentials_message), printed s [cause]))
  /\ fst constructed = Raise (ValueError no_credentials_message)
  /\ client (self (snd constructed)) = client (self st)
  /\ (url_arg = None -> flag = env_toggle env -> st = initial ->
      forall argv, 2 <= List.length argv ->
        exit_code urlparse_hostname create_default_context env argv = 1
        /\ exists before,
             output urlparse_hostname create_default_context env argv
             = (before ++ [cause; ("Error: " ++ no_credentials_message)%string])%list).
Proof.
  intros Hurl Hne Hcred Hexc cause constructed. subst cause constructed.
  assert (Hget : forall s, _get_credential env s
                           = (Raise (ValueError no_credentials_message),
                              printed s ["DefaultAzureCredential failed: "
                                         ++ exn_str e])).
  { intros s. unfold _get_credential, try_except, lift.
    rewrite Hcred, Hexc. now mstep. }
  split; [exact Hget |].
  destruct (init_prefix urlparse_hostname create_default_context env url_arg flag
              st u0 Hurl Hne) as (s2 & Hinit & Hs2).
  assert (Hrest : init_rest urlparse_hostname create_default_context env s2
                  = (Raise (ValueError no_credentials_message),
                     printed s2 ["DefaultAzureCredential failed: " ++ exn_str e])).
  { unfold init_rest. now rewrite (bind_fail _ _ _ _ _ (Hget s2)). }
  rewrite Hinit, Hrest. cbn [fst snd printed self].
  split; [reflexivity |].
  split; [now rewrite Hs2 |].
  intros -> -> -> argv Hlen.
  rewrite Hrest in Hinit.
  pose proof (main_init_fails urlparse_hostname create_default_context env
                argv _ _ Hlen Hinit eq_refl) as Hmain.
  unfold exit_code, output. rewrite Hmain. cbn [fst snd].
  split; [reflexivity |].
  exists (stdout s2). rewrite printed_printed. cbn [printed stdout exn_str app].
  reflexivity.
Qed.

Lemma missing_credential_is_fatal_witness :
  let env :=
    {| getenv := fun k =>
         if String.eqb k "AZURE_KEYVAULT_URL" then Some Examples.public_url
         else None;
       DefaultAzureCredential := Raise (OtherException "az login required");
       remote := Examples.store |} in
  Examples.run env ["keyvault_client.py"; "list"]
  = (["Connecting to Key Vault: https://myvault.vault.azure.net/";
      "DefaultAzureCredential failed: az login required";
      "Error: " ++ no_credentials_message], 1).
Proof.
  intros env.
  destruct (missing_credential_is_fatal
              Urllib.urlsplit_hostname Urllib.default_context env
              None false initial Examples.public_url
              (OtherException "az login required")
              eq_refl ltac:(discriminate) eq_refl eq_refl)
    as (_ & _ & _ & Hmain).
  destruct (Hmain eq_refl eq_refl eq_refl ["keyvault_client.py"; "list"]
              (le_n 2)) as [Hcode _].
  unfold Examples.run. rewrite Hcode. vm_compute. reflexivity.
Defined.

(** X7.  Normalizing the endpoint is idempotent: a client constructed from
    the endpoint an earlier construction settled on is the same client and
    prints the same lines; no second "/" is appended. *)
Theorem normalized_endpoint_is_stable
    (urlparse_hostname : string -> Result (option string))
    (create_default_context : SSLContext) (env : Environment)
    (flag : bool) (st : State) (u0 : string) (c : Credential) (h : string) :
  u0 <> "" ->
  DefaultAzureCredential env = Ok c ->
  urlparse_hostname (normalized u0) = Ok (Some h) ->
  normalized (normalized u0) = normalized u0
  /\ __init__ urlparse_hostname create_default_context env
       (Some (normalized u0)) flag st
     = __init__ urlparse_hostname create_default_context env (Some u0) flag st.
Proof.
  intros Hne Hcred Hparse.
  assert (Hidem : normalized (normalized u0) = normalized u0).
  { unfold normalized at 1.
    now rewrite (proj2 (endswith_spec _ _) (normalized_ends_with_slash u0)). }
  split; [exact Hidem |].
  assert (Hor : forall u, u <> "" ->
                  Py.or_else (Some u) (getenv env "AZURE_KEYVAULT_URL") = Some u).
  { intros u Hu. unfold Py.or_else, Py.truthy_opt, Py.truthy.
    apply String.eqb_neq in Hu. now rewrite Hu. }
  rewrite (init_log urlparse_hostname create_default_context env
             (Some (normalized u0)) flag st (normalized u0) c h
             (Hor _ (normalized_nonempty u0)) (normalized_nonempty u0) Hcred)
    by now rewrite Hidem.
  rewrite (init_log urlparse_hostname create_default_context env
             (Some u0) flag st u0 c h (Hor _ Hne) Hne Hcred Hparse).
  unfold built_client, init_lines. now rewrite Hidem.
Qed.

Lemma normalized_endpoint_is_stable_witness :
  normalized (normalized "https://v.example.com") = "https://v.example.com/"
  /\ Examples.constructed (Examples.env_with "" Examples.store)
       (Some "https://v.example.com/") false
     = Examples.constructed (Examples.env_with "" Examples.store)
         (Some "https://v.example.com") false.
Proof.
  destruct (normalized_endpoint_is_stable
              Urllib.urlsplit_hostname Urllib.default_context
              (Examples.env_with "" Examples.store) false initial
              "https://v.example.com" DefaultCredential "v.example.com"
              ltac:(discriminate) eq_refl eq_refl) as [Hidem Hsame].
  split; [rewrite Hidem; reflexivity | exact Hsame].
Defined.

(** ** The command line, further *)

Section CommandLineFurther.

Variable urlparse_hostname : string -> Result (option string).
Variable create_default_context : SSLContext.
Variable env : Environment.

Local Abbreviation init := (__init__ urlparse_hostname create_default_context env).
Local Abbreviation run_main := (main urlparse_hostname create_default_context env).

Lemma main_usage (argv : list string) (st : State) :
  List.length argv < 2 ->
  run_main argv st = (Raise (SystemExit 1), printed st usage_lines).
Proof.
  intros Hlen. unfold main. apply Nat.ltb_lt in Hlen. rewrite Hlen.
  unfold usage. repeat (rewrite ?bind_bind; rewrite bind_print; cbv beta).
  rewrite !printed_printed. reflexivity.
Qed.

Lemma main_lower (prog command : string) (rest : list string) (st : State) :
  run_main (prog :: command :: rest) st
  = run_main (prog :: Py.lower command :: rest) st.
Proof.
  unfold main. cbn [List.length nth skipn]. now rewrite lower_idempotent.
Qed.

Variables (prog : string) (st1 : State).
Hypothesis Hinit : init None (env_toggle env) initial = (Ok tt, st1).

Lemma init_client :
  exists sdk, client (self st1) = Some sdk /\ sc_remote sdk = remote env.
Proof.
  assert (Hok : fst (init None (env_toggle env) initial) = Ok tt)
    by now rewrite Hinit.
  destruct (init_inv _ _ _ _ _ _ Hok) as (u0 & c & h & Hu & Hne & Hc & Hp).
  destruct (init_run urlparse_hostname create_default_context env None
              (env_toggle env) initial u0 c h Hu Hne Hc Hp)
    as (st' & Hrun & Hself).
  rewrite Hinit in Hrun. injection Hrun as <-.
  rewrite Hself. unfold built_client. cbn [client]. eauto.
Qed.

Lemma main_invalid (argv : list string) :
  2 <= List.length argv ->
  dispatches argv = false ->
  run_main argv initial =
    (Raise (SystemExit 1), printed st1 ["Invalid command or missing arguments"]).
Proof.
  intros Hlen Hno. unfold main, try_except. cbv zeta.
  apply Nat.ltb_ge in Hlen. rewrite Hlen. fold (env_toggle env).
  rewrite (bind_run _ _ _ _ _ Hinit).
  unfold dispatches in Hno. cbv zeta in Hno.
  repeat (apply orb_false_iff in Hno; destruct Hno as [Hno ?]).
  repeat match goal with H : _ = false |- _ => rewrite H; clear H end.
  now mstep.
Qed.

Lemma main_set (secret_name secret_value : string) (ok : bool) (st2 : State) :
  set_secret secret_name secret_value st1 = (Ok ok, st2) ->
  run_main [prog; "set"; secret_name; secret_value] initial =
    (if ok then Ok tt else Raise (SystemExit 1), st2).
Proof.
  intros Hset. unfold main, try_except. cbv zeta.
  change (Nat.ltb (List.length [prog; "set"; secret_name; secret_value]) 2)
    with false.
  cbv beta iota. fold (env_toggle env).
  rewrite (bind_run _ _ _ _ _ Hinit).
  change (Py.lower (nth 1 [prog; "set"; secret_name; secret_value] ""))
    with "set".
  change ("set" =? "test") with false.
  change ("set" =? "get") with false.
  change ("set" =? "set") with true.
  cbn [andb List.length Nat.leb nth].
  rewrite (bind_run _ _ _ _ _ Hset).
  destruct ok; reflexivity.
Qed.

Lemma main_get_raises (secret_name : string) (e : exn) (st2 : State) :
  get_secret secret_name st1 = (Raise e, st2) ->
  is_Exception e = true ->
  run_main [prog; "get"; secret_name] initial =
    (Raise (SystemExit 1), printed st2 ["Error: " ++ exn_str e]).
Proof.
  intros Hget He. unfold main, try_except. cbv zeta.
  change (Nat.ltb (List.length [prog; "get"; secret_name]) 2) with false.
  cbv beta iota. fold (env_toggle env).
  rewrite (bind_run _ _ _ _ _ Hinit).
  change (Py.lower (nth 1 [prog; "get"; secret_name] "")) with "get".
  change ("get" =? "test") with false.
  change ("get" =? "get") with true.
  cbn [andb List.length Nat.leb nth].
  rewrite (bind_fail _ _ _ _ _ Hget), He. now mstep.
Qed.

Lemma main_list (names : list string) (st2 : State) :
  list_secrets st1 = (Ok names, st2) ->
  run_main [prog; "list"] initial = (Ok tt, printed st2 (list_lines names)).
Proof.
  intros Hlist. unfold main, try_except. cbv zeta.
  change (Nat.ltb (List.length [prog; "list"]) 2) with false.
  cbv beta iota. fold (env_toggle env).
  rewrite (bind_run _ _ _ _ _ Hinit).
  change (Py.lower (nth 1 [prog; "list"] "")) with "list".
  change ("list" =? "test") with false.
  change ("list" =? "get") with false.
  change ("list" =? "set") with false.
  change ("list" =? "list") with true.
  cbn [andb List.length Nat.leb nth].
  rewrite (bind_run _ _ _ _ _ Hlist).
  destruct names as [| n ns]; cbn [list_lines].
  - reflexivity.
  - rewrite bind_print, (for_each_print (fun secret => "  - " ++ secret)).
    rewrite printed_printed. reflexivity.
Qed.

End CommandLineFurther.

(** X8.  Called without a command, [main] prints the usage text and exits
    with 1 before it reads the environment or constructs a client. *)
Theorem usage_when_no_command
    (urlparse_hostname : string -> Result (option string))
    (create_default_context : SSLContext) (env : Environment)
    (argv : list string) :
  List.length argv < 2 ->
  main urlparse_hostname create_default_context env argv initial
  = (Raise (SystemExit 1), printed initial usage_lines)
  /\ exit_code urlparse_hostname create_default_context env argv = 1
  /\ output urlparse_hostname create_default_context env argv = usage_lines.
Proof.
  intros Hlen.
  pose proof (main_usage urlparse_hostname create_default_context env argv
                initial Hlen) as Hmain.
  unfold exit_code, output. rewrite Hmain. repeat split.
Qed.

Lemma usage_when_no_command_witness :
  Examples.run Examples.env_empty ["keyvault_client.py"] = (usage_lines, 1).
Proof.
  destruct (usage_when_no_command
              Urllib.urlsplit_hostname Urllib.default_context
              Examples.env_empty ["keyvault_client.py"] (le_n 2))
    as (_ & Hcode & Hout).
  unfold Examples.run. now rewrite Hcode, Hout.
Defined.

(** X9.  With a client constructed, a command line that names no known
    command, or a known one without the arguments it needs, prints
    "Invalid command or missing arguments" and exits with 1; the exit is
    not caught by [main]'s own handler. *)
Theorem unknown_command_exits_with_1
    (urlparse_hostname : string -> Result (option string))
    (create_default_context : SSLContext) (env : Environment)
    (argv : list string) (st1 : State) :
  __init__ urlparse_hostname create_default_context env None (env_toggle env)
    initial = (Ok tt, st1) ->
  2 <= List.length argv ->
  dispatches argv = false ->
  exit_code urlparse_hostname create_default_context env argv = 1
  /\ output urlparse_hostname create_default_context env argv
     = (stdout st1 ++ ["Invalid command or missing arguments"])%list.
Proof.
  intros Hinit Hlen Hno.
  pose proof (main_invalid urlparse_hostname create_default_context env st1
                Hinit argv Hlen Hno) as Hmain.
  unfold exit_code, output. rewrite Hmain. split; reflexivity.
Qed.

Lemma unknown_command_exits_with_1_witness :
  Examples.run (Examples.env_with Examples.public_url Examples.store)
    ["keyvault_client.py"; "set"; "only-a-name"]
  = (["Connecting to Key Vault: https://myvault.vault.azure.net/";
      "Configured for public Azure Key Vault (strict SSL verification)";
      "Invalid command or missing arguments"], 1).
Proof.
  assert (Hinit : __init__ Urllib.urlsplit_hostname Urllib.default_context
                    (Examples.env_with Examples.public_url Examples.store)
                    None
                    (env_toggle (Examples.env_with Examples.public_url Examples.store))
                    initial
                  = (Ok tt, Examples.ready Examples.store))
    by (vm_compute; reflexivity).
  destruct (unknown_command_exits_with_1
              Urllib.urlsplit_hostname Urllib.default_context
              (Examples.env_with Examples.public_url Examples.store)
              ["keyvault_client.py"; "set"; "only-a-name"]
              (Examples.ready Examples.store) Hinit
              (le_S _ _ (le_n 2)) eq_refl) as [Hcode Hout].
  unfold Examples.run. rewrite Hcode, Hout. vm_compute. reflexivity.
Defined.

(** X10.  The command is matched without regard to case: a command line
    behaves as the same line with its command in lower case. *)
Theorem command_is_case_insensitive
    (urlparse_hostname : string -> Result (option string))
    (create_default_context : SSLContext) (env : Environment)
    (prog command : string) (rest : list string) (st : State) :
  main urlparse_hostname create_default_context env (prog :: command :: rest) st
  = main urlparse_hostname create_default_context env
      (prog :: Py.lower command :: rest) st.
Proof. apply main_lower. Qed.

(** X11.  Arguments beyond those a command reads are ignored: [test] and
    [list] read none, [get] reads the name, [set] reads the name and one
    value. *)
Theorem trailing_arguments_are_ignored
    (urlparse_hostname : string -> Result (option string))
    (create_default_context : SSLContext) (env : Environment)
    (prog secret_name secret_value : string) (extra : list string) (st : State) :
  let run := main urlparse_hostname create_default_context env in
  run (prog :: "test" :: extra) st = run [prog; "test"] st
  /\ run (prog :: "list" :: extra) st = run [prog; "list"] st
  /\ run (prog :: "get" :: secret_name :: extra) st
     = run [prog; "get"; secret_name] st
  /\ run (prog :: "set" :: secret_name :: secret_value :: extra) st
     = run [prog; "set"; secret_name; secret_value] st.
Proof.
  cbv zeta. unfold main. cbn [List.length nth Nat.ltb Nat.leb].
  repeat split.
Qed.

(** X12.  The [set] command exits with 0 and prints the confirmation when
    the store accepts the write, and exits with 1 after the error line
    when the store reports a failure. *)
Theorem set_command_exit_status
    (urlparse_hostname : string -> Result (option string))
    (create_default_context : SSLContext) (env : Environment)
    (prog secret_name secret_value : string) (st1 : State) :
  __init__ urlparse_hostname create_default_context env None (env_toggle env)
    initial = (Ok tt, st1) ->
  let argv := [prog; "set"; secret_name; secret_value] in
  (forall secret,
     remote_set_secret (remote env) secret_name secret_value = Ok secret ->
     exit_code urlparse_hostname create_default_context env argv = 0
     /\ output urlparse_hostname create_default_context env argv
        = (stdout st1
           ++ [("Secret '" ++ secret_name ++ "' set successfully")%string])%list)
  /\ (forall e,
        remote_set_secret (remote env) secret_name secret_value = Raise e ->
        is_AzureError e = true ->
        exit_code urlparse_hostname create_default_context env argv = 1
        /\ output urlparse_hostname create_default_context env argv
           = (stdout st1
              ++ [("Error setting secret '" ++ secret_name ++ "': "
                   ++ exn_str e)%string])%list).
Proof.
  intros Hinit argv. subst argv.
  destruct (init_client urlparse_hostname create_default_context env st1 Hinit)
    as (sdk & Hclient & Hsdk).
  split.
  - intros secret Hset. rewrite <- Hsdk in Hset.
    pose proof (main_set urlparse_hostname create_default_context env prog st1
                  Hinit secret_name secret_value true _
                  (set_secret_ok st1 sdk Hclient _ _ _ Hset)) as Hmain.
    unfold exit_code, output. rewrite Hmain. split; reflexivity.
  - intros e Hset He. rewrite <- Hsdk in Hset.
    pose proof (main_set urlparse_hostname create_default_context env prog st1
                  Hinit secret_name secret_value false _
                  (set_secret_azure_error st1 sdk Hclient _ _ _ Hset He))
      as Hmain.
    unfold exit_code, output. rewrite Hmain. split; reflexivity.
Qed.

Lemma set_command_exit_status_witness :
  Examples.run (Examples.env_with Examples.public_url Examples.unreachable)
    ["keyvault_client.py"; "set"; "k"; "v"]
  = (["Connecting to Key Vault: https://myvault.vault.azure.net/";
      "Configured for public Azure Key Vault (strict SSL verification)";
      "Error setting secret 'k': connection refused"], 1).
Proof.
  assert (Hinit : __init__ Urllib.urlsplit_hostname Urllib.default_context
                    (Examples.env_with Examples.public_url Examples.unreachable)
                    None
                    (env_toggle
                       (Examples.env_with Examples.public_url Examples.unreachable))
                    initial
                  = (Ok tt, Examples.ready Examples.unreachable))
    by (vm_compute; reflexivity).
  destruct (set_command_exit_status
              Urllib.urlsplit_hostname Urllib.default_context
              (Examples.env_with Examples.public_url Examples.unreachable)
              "keyvault_client.py" "k" "v"
              (Examples.ready Examples.unreachable) Hinit) as [_ Hfail].
  destruct (Hfail _ eq_refl eq_refl) as [Hcode Hout].
  unfold Examples.run. rewrite Hcode, Hout. vm_compute. reflexivity.
Defined.

(** X13.  The [get] command prints "name: value" and exits with 0 when the
    store holds a value for the name that is not empty. *)
Theorem get_command_prints_value
    (urlparse_hostname : string -> Result (option string))
    (create_default_context : SSLContext) (env : Environment)
    (prog secret_name v : string) (st1 : State) :
  __init__ urlparse_hostname create_default_context env None (env_toggle env)
    initial = (Ok tt, st1) ->
  remote_get_secret (remote env) secret_name = Ok {| value := Some v |} ->
  v <> "" ->
  exit_code urlparse_hostname create_default_context env
    [prog; "get"; secret_name] = 0
  /\ output urlparse_hostname create_default_context env
       [prog; "get"; secret_name]
     = (stdout st1 ++ [value_line secret_name v])%list.
Proof.
  intros Hinit Hget Hne.
  destruct (init_client urlparse_hostname create_default_context env st1 Hinit)
    as (sdk & Hclient & Hsdk).
  rewrite <- Hsdk in Hget.
  pose proof (main_get urlparse_hostname create_default_context env prog st1
                Hinit secret_name _ _
                (get_secret_ok st1 sdk Hclient _ _ Hget)) as Hmain.
  cbn [value Py.truthy_opt] in Hmain. unfold Py.truthy in Hmain.
  apply String.eqb_neq in Hne. rewrite Hne in Hmain. cbn [negb shown] in Hmain.
  unfold exit_code, output. rewrite Hmain. split; reflexivity.
Qed.

Lemma get_command_prints_value_witness :
  Examples.run (Examples.env_with Examples.public_url Examples.store)
    ["keyvault_client.py"; "get"; "db-password"]
  = (["Connecting to Key Vault: https://myvault.vault.azure.net/";
      "Configured for public Azure Key Vault (strict SSL verification)";
      "db-password: s3cret"], 0).
Proof.
  assert (Hinit : __init__ Urllib.urlsplit_hostname Urllib.default_context
                    (Examples.env_with Examples.public_url Examples.store)
                    None
                    (env_toggle (Examples.env_with Examples.public_url Examples.store))
                    initial
                  = (Ok tt, Examples.ready Examples.store))
    by (vm_compute; reflexivity).
  destruct (get_command_prints_value
              Urllib.urlsplit_hostname Urllib.default_context
              (Examples.env_with Examples.public_url Examples.store)
              "keyvault_client.py" "db-password" "s3cret"
              (Examples.ready Examples.store) Hinit eq_refl ltac:(discriminate))
    as [Hcode Hout].
  unfold Examples.run. rewrite Hcode, Hout. vm_compute. reflexivity.
Defined.

(** X14.  An exception the facade does not absorb ends the command in
    [main]'s handler: for a [get] whose lookup raises an [Exception] that
    is not an [AzureError], "Error: " and the exception's text are printed
    and the process exits with 1. *)
Theorem unexpected_exception_exits_with_1
    (urlparse_hostname : string -> Result (option string))
    (create_default_context : SSLContext) (env : Environment)
    (prog secret_name : string) (e : exn) (st1 : State) :
  __init__ urlparse_hostname create_default_context env None (env_toggle env)
    initial = (Ok tt, st1) ->
  remote_get_secret (remote env) secret_name = Raise e ->
  is_AzureError e = false ->
  is_Exception e = true ->
  exit_code urlparse_hostname create_default_context env
    [prog; "get"; secret_name] = 1
  /\ output urlparse_hostname create_default_context env
       [prog; "get"; secret_name]
     = (stdout st1 ++ [("Error: " ++ exn_str e)%string])%list.
Proof.
  intros Hinit Hget Hazure Hexc.
  destruct (init_client urlparse_hostname create_default_context env st1 Hinit)
    as (sdk & Hclient & Hsdk).
  rewrite <- Hsdk in Hget.
  pose proof (main_get_raises urlparse_hostname create_default_context env prog
                st1 Hinit secret_name e _
                (get_secret_propagates st1 sdk Hclient _ _ Hget Hazure) Hexc)
    as Hmain.
  unfold exit_code, output. rewrite Hmain. split; reflexivity.
Qed.

Lemma unexpected_exception_exits_with_1_witness :
  let broken :=
    {| remote_get_secret := fun _ => Raise (OtherException "not a secret name");
       remote_set_secret := fun _ v => Ok {| value := Some v |};
       remote_list_properties_of_secrets := {| yielded := []; raised := None |} |} in
  Examples.run (Examples.env_with Examples.public_url broken)
    ["keyvault_client.py"; "get"; "odd"]
  = (["Connecting to Key Vault: https://myvault.vault.azure.net/";
      "Configured for public Azure Key Vault (strict SSL verification)";
      "Error: not a secret name"], 1).
Proof.
  intros broken.
  assert (Hinit : __init__ Urllib.urlsplit_hostname Urllib.default_context
                    (Examples.env_with Examples.public_url broken)
                    None
                    (env_toggle (Examples.env_with Examples.public_url broken))
                    initial
                  = (Ok tt, Examples.ready broken))
    by (vm_compute; reflexivity).
  destruct (unexpected_exception_exits_with_1
              Urllib.urlsplit_hostname Urllib.default_context
              (Examples.env_with Examples.public_url broken)
              "keyvault_client.py" "odd" (OtherException "not a secret name")
              (Examples.ready broken) Hinit eq_refl eq_refl eq_refl)
    as [Hcode Hout].
  unfold Examples.run. rewrite Hcode, Hout. vm_compute. reflexivity.
Defined.

(** X15.  When the listing completes, [list_secrets] returns the names in
    the order the store yields them and prints nothing, and the [list]
    command prints "Available secrets:" and one "  - name" line per secret
    in that order, or the no-secrets line when there are none; it exits
    with 0. *)
Theorem list_command_prints_names_in_order
    (urlparse_hostname : string -> Result (option string))
    (create_default_context : SSLContext) (env : Environment)
    (prog : string) (st1 : State) :
  __init__ urlparse_hostname create_default_context env None (env_toggle env)
    initial = (Ok tt, st1) ->
  raised (remote_list_properties_of_secrets (remote env)) = None ->
  let names := map name (yielded (remote_list_properties_of_secrets (remote env))) in
  list_secrets st1 = (Ok names, st1)
  /\ exit_code urlparse_hostname create_default_context env [prog; "list"] = 0
  /\ output urlparse_hostname create_default_context env [prog; "list"]
     = (stdout st1 ++ list_lines names)%list.
Proof.
  intros Hinit Hraised names. subst names.
  destruct (init_client urlparse_hostname create_default_context env st1 Hinit)
    as (sdk & Hclient & Hsdk).
  rewrite <- Hsdk in *.
  pose proof (list_secrets_ok st1 sdk Hclient Hraised) as Hlist.
  split; [exact Hlist |].
  pose proof (main_list urlparse_hostname create_default_context env prog st1
                Hinit _ _ Hlist) as Hmain.
  unfold exit_code, output. rewrite Hmain. split; reflexivity.
Qed.

Lemma list_command_prints_names_in_order_witness :
  Examples.run (Examples.env_with Examples.public_url Examples.store)
    ["keyvault_client.py"; "list"]
  = (["Connecting to Key Vault: https://myvault.vault.azure.net/";
      "Configured for public Azure Key Vault (strict SSL verification)";
      "Available secrets:"; "  - db-password"; "  - empty"], 0).
Proof.
  assert (Hinit : __init__ Urllib.urlsplit_hostname Urllib.default_context
                    (Examples.env_with Examples.public_url Examples.store)
                    None
                    (env_toggle (Examples.env_with Examples.public_url Examples.store))
                    initial
                  = (Ok tt, Examples.ready Examples.store))
    by (vm_compute; reflexivity).
  destruct (list_command_prints_names_in_order
              Urllib.urlsplit_hostname Urllib.default_context
              (Examples.env_with Examples.public_url Examples.store)
              "keyvault_client.py" (Examples.ready Examples.store)
              Hinit eq_refl) as (_ & Hcode & Hout).
  unfold Examples.run. rewrite Hcode, Hout. vm_compute. reflexivity.
Defined.

(** X16.  The [get-multiple] command prints, after whatever error lines the
    lookups produced, one line per requested name in the order of first
    occurrence, a repeated name once: "name: value" for a value that is not
    empty and "name: [NOT FOUND]" otherwise; it exits with 0. *)
Theorem get_multiple_command_prints_each_name_once
    (urlparse_hostname : string -> Result (option string))
    (create_default_context : SSLContext) (env : Environment)
    (prog n : string) (ns : list string) (st1 : State) :
  __init__ urlparse_hostname create_default_context env None (env_toggle env)
    initial = (Ok tt, st1) ->
  (forall k, In k (n :: ns) -> reports_failure_as_AzureError (remote env) k) ->
  let argv := prog :: "get-multiple" :: n :: ns in
  exit_code urlparse_hostname create_default_context env argv = 0
  /\ exists log,
       output urlparse_hostname create_default_context env argv
       = (stdout st1 ++ log
          ++ map (fun k => get_multiple_line (k, fetched (remote env) k))
                 (first_occurrences (n :: ns)))%list.
Proof.
  intros Hinit Hrep argv. subst argv.
  destruct (init_client urlparse_hostname create_default_context env st1 Hinit)
    as (sdk & Hclient & Hsdk).
  rewrite <- Hsdk in *.
  destruct (get_multiple_loop sdk (n :: ns) Hrep st1 [] Hclient) as [log Hloop].
  pose proof (main_get_multiple urlparse_hostname create_default_context env
                prog st1 Hinit n ns _ _ Hloop) as Hmain.
  unfold exit_code, output. rewrite Hmain. cbn [fst snd printed stdout].
  split; [reflexivity |].
  exists log. rewrite fold_setitem_entries, map_map, <- app_assoc. reflexivity.
Qed.

Lemma get_multiple_command_prints_each_name_once_witness :
  Examples.run (Examples.env_with Examples.public_url Examples.store)
    ["keyvault_client.py"; "get-multiple"; "missing"; "db-password"; "missing";
     "empty"]
  = (["Connecting to Key Vault: https://myvault.vault.azure.net/";
      "Configured for public Azure Key Vault (strict SSL verification)";
      "Error retrieving secret 'missing': (SecretNotFound)";
      "Error retrieving secret 'missing': (SecretNotFound)";
      "missing: [NOT FOUND]"; "db-password: s3cret"; "empty: [NOT FOUND]"], 0).
Proof.
  assert (Hinit : __init__ Urllib.urlsplit_hostname Urllib.default_context
                    (Examples.env_with Examples.public_url Examples.store)
                    None
                    (env_toggle (Examples.env_with Examples.public_url Examples.store))
                    initial
                  = (Ok tt, Examples.ready Examples.store))
    by (vm_compute; reflexivity).
  destruct (get_multiple_command_prints_each_name_once
              Urllib.urlsplit_hostname Urllib.default_context
              (Examples.env_with Examples.public_url Examples.store)
              "keyvault_client.py" "missing" ["db-password"; "missing"; "empty"]
              (Examples.ready Examples.store) Hinit) as [Hcode _].
  - intros k Hk e He. cbn in Hk.
    destruct Hk as [<- | [<- | [<- | [<- | []]]]];
      cbn in He; now inversion He.
  - unfold Examples.run. rewrite Hcode. vm_compute. reflexivity.
Defined.

(** X17.  The facade logs the cause of every failure it absorbs and is
    silent otherwise: on an [AzureError] each of [get_secret],
    [set_secret] and [list_secrets] prints one line that names the
    operation and carries the error's text; a successful [get_secret] or
    [list_secrets] prints nothing and a successful [set_secret] prints its
    confirmation. *)
Theorem absorbed_failures_are_logged (st : State) (sdk : SecretClient)
    (secret_name secret_value : string) :
  client (self st) = Some sdk ->
  let store := sc_remote sdk in
  (forall e, is_AzureError e = true ->
     (remote_get_secret store secret_name = Raise e ->
      snd (get_secret secret_name st)
      = printed st ["Error retrieving secret '" ++ secret_name ++ "': "
                    ++ exn_str e])
     /\ (remote_set_secret store secret_name secret_value = Raise e ->
         snd (set_secret secret_name secret_value st)
         = printed st ["Error setting secret '" ++ secret_name ++ "': "
                       ++ exn_str e])
     /\ (raised (remote_list_properties_of_secrets store) = Some e ->
         snd (list_secrets st)
         = printed st ["Error listing secrets: " ++ exn_str e]))
  /\ (forall secret, remote_get_secret store secret_name = Ok secret ->
        snd (get_secret secret_name st) = st)
  /\ (forall secret,
        remote_set_secret store secret_name secret_value = Ok secret ->
        snd (set_secret secret_name secret_value st)
        = printed st ["Secret '" ++ secret_name ++ "' set successfully"])
  /\ (raised (remote_list_properties_of_secrets store) = None ->
      snd (list_secrets st) = st).
Proof.
  intros Hclient store. subst store.
  split; [intros e He; split; [| split] | split; [| split]].
  - intros H. now rewrite (get_secret_azure_error st sdk Hclient _ _ H He).
  - intros H. now rewrite (set_secret_azure_error st sdk Hclient _ _ _ H He).
  - intros H. now rewrite (list_secrets_azure_error st sdk Hclient _ H He).
  - intros secret H. now rewrite (get_secret_ok st sdk Hclient _ _ H).
  - intros secret H. now rewrite (set_secret_ok st sdk Hclient _ _ _ H).
  - intros H. now rewrite (list_secrets_ok st sdk Hclient H).
Qed.

Lemma absorbed_failures_are_logged_witness :
  stdout (snd (get_secret "missing" (Examples.ready Examples.store)))
  = ["Connecting to Key Vault: https://myvault.vault.azure.net/";
     "Configured for public Azure Key Vault (strict SSL verification)";
     "Error retrieving secret 'missing': (SecretNotFound)"]
  /\ snd (get_secret "db-password" (Examples.ready Examples.store))
     = Examples.ready Examples.store.
Proof.
  destruct (absorbed_failures_are_logged (Examples.ready Examples.store) _
              "missing" "v" eq_refl) as (Hfail & _).
  destruct (absorbed_failures_are_logged (Examples.ready Examples.store) _
              "db-password" "v" eq_refl) as (_ & Hok & _).
  split.
  - destruct (Hfail (AzureError ResourceNotFoundError "(SecretNotFound)") eq_refl)
      as (Hget & _).
    rewrite (Hget eq_refl). vm_compute. reflexivity.
  - exact (Hok _ eq_refl).
Defined.
